(** * MAVSDK core logging facility ([src/mavsdk/core/log.h])

    A shallow embedding of the header: the [FILENAME] macro, the mutex and
    the sink ([log_mutex_], [log_file]), [set_log_file], [get_log_stream] and the
    scope-bound record [LogDetailed] with its four severity subclasses.

    The code is effectful and guarded by a [std::mutex], so the functions are
    written as programs over the primitive operations they call (lock, open,
    stream insertion, ...), in a small free monad.  Three readings of such a
    program are given: the run of one thread on a world ([run]), the program
    order of the operations it issues ([issued]), and the interleaved
    execution of several threads ([step]).  A world is what one translation
    unit sees; [process], [run_in] and [pstep] are the same readings for a
    process of several units, each with its own mutex and stream. *)

From Stdlib Require Import String Ascii List ZArith Bool Lia DecimalString.
Import ListNotations.
Open Scope string_scope.
Open Scope Z_scope.

(** ** Build configuration

    The header is specialised by two preprocessor symbols. *)

Record build : Type := Build {
  WINDOWS : bool;   (* #if !defined(WINDOWS) ... around FILENAME *)
  ANDROID : bool    (* #if ANDROID ... inside ~LogDetailed *)
}.

Definition posix : build := {| WINDOWS := false; ANDROID := false |}.
Definition windows : build := {| WINDOWS := true; ANDROID := false |}.
Definition android : build := {| WINDOWS := false; ANDROID := true |}.

(** ** C strings and the FILENAME macro *)

Module CString.

(** [strrchr s c]: the tail of [s] that starts at the last occurrence of [c],
    [None] for the null pointer.  (The terminator is never searched for here:
    the only caller passes ['/'].) *)
Fixpoint strrchr (s : string) (c : ascii) : option string :=
  match s with
  | EmptyString => None
  | String a rest =>
      match strrchr rest c with
      | Some tail => Some tail
      | None => if Ascii.eqb a c then Some s else None
      end
  end.

(** Pointer arithmetic [p + 1] on a pointer into a string. *)
Definition plus1 (p : string) : string :=
  match p with
  | EmptyString => EmptyString
  | String _ rest => rest
  end.

(** [c] occurs in [s]. *)
Fixpoint occurs (c : ascii) (s : string) : bool :=
  match s with
  | EmptyString => false
  | String a rest => Ascii.eqb a c || occurs c rest
  end.

End CString.

Definition slash : ascii := "/"%char.

(** [#define FILENAME (__builtin_strrchr(__FILE__, '/') ?
                       __builtin_strrchr(__FILE__, '/') + 1 : __FILE__)]
    unless WINDOWS is defined, where it is [__FILE__]. *)
Definition FILENAME (b : build) (__FILE__ : string) : string :=
  if negb (WINDOWS b) then
    match CString.strrchr __FILE__ slash with
    | Some p => CString.plus1 p
    | None => __FILE__
    end
  else __FILE__.

(** ** Severity, colours *)

(** [log::Level], declared in log_callback.h; the enumerators are the four
    the destructor switches over. *)
Inductive Level : Type := Debug | Info | Warn | Err.

(** [enum class Color]. *)
Inductive Color : Type := Red | Green | Yellow | Blue | Gray | Reset.

(** ** Broken-down time and strftime *)

Record tm : Type := Tm {
  tm_hour : Z;
  tm_min : Z;
  tm_sec : Z
}.

Definition digit (n : Z) : ascii :=
  ascii_of_nat (48 + Z.to_nat (n mod 10)).

(** A field printed as two decimal digits, zero padded. *)
Definition two_digits (n : Z) : string :=
  String (digit (n / 10)) (String (digit n) EmptyString).

(** The hour of the 12-hour clock. *)
Definition hour12 (h : Z) : Z :=
  if h mod 12 =? 0 then 12 else h mod 12.

(** One conversion specification of strftime; those that print clock
    fields. *)
Definition conversion (c : ascii) (t : tm) : string :=
  if Ascii.eqb c "I" then two_digits (hour12 (tm_hour t))
  else if Ascii.eqb c "H" then two_digits (tm_hour t)
  else if Ascii.eqb c "M" then two_digits (tm_min t)
  else if Ascii.eqb c "S" then two_digits (tm_sec t)
  else if Ascii.eqb c "%" then "%"
  else EmptyString.

Fixpoint expand (format : string) (t : tm) : string :=
  match format with
  | EmptyString => EmptyString
  | String a rest =>
      if Ascii.eqb a "%" then
        match rest with
        | EmptyString => EmptyString
        | String c rest' => conversion c t ++ expand rest' t
        end
      else String a (expand rest t)
  end.

(** [strftime(buf, maxsize, format, timeinfo)]: the text left in [buf], or
    [None] when text and terminator do not fit in [maxsize] characters. *)
Definition strftime (maxsize : nat) (format : string) (t : tm) : option string :=
  let text := expand format t in
  if Nat.ltb (String.length text) maxsize then Some text else None.

(** [char time_buffer[10]{}; strftime(time_buffer, sizeof(time_buffer),
    "%I:%M:%S", timeinfo);] The buffer is zero-initialised, so it reads as the
    empty string when nothing was stored. *)
Definition time_buffer (timeinfo : tm) : string :=
  match strftime 10 "%I:%M:%S" timeinfo with
  | Some text => text
  | None => EmptyString
  end.

(** [os << std::dec << n] for an [int]. *)
Definition dec (n : Z) : string := NilZero.string_of_int (Z.to_int n).

(** ** Primitive operations

    The library calls the header makes on shared state.  A thread is
    identified by a number. *)

Definition tid : Type := nat.

(** The two [std::ostream] objects the code writes to. *)
Inductive stream : Type :=
| cout       (* std::cout *)
| log_file.  (* static std::ofstream log_file *)

(** [std::ios::openmode], the two flags the code combines. *)
Record openmode : Type := Mode { mode_out : bool; mode_app : bool }.
Definition ios_out : openmode := {| mode_out := true; mode_app := false |}.
Definition ios_app : openmode := {| mode_out := false; mode_app := true |}.
Definition mode_or (a b : openmode) : openmode :=
  {| mode_out := mode_out a || mode_out b; mode_app := mode_app a || mode_app b |}.

Inductive android_LogPriority : Type :=
| ANDROID_LOG_DEBUG | ANDROID_LOG_INFO | ANDROID_LOG_WARN | ANDROID_LOG_ERROR.

(** Modelled from the spec: the callback registry of log_callback.h, which
    is included and not part of this header.  It holds at most one
    interception function, from level, message, file and line to "handled";
    [log::get_callback()] returns it.  The function is taken as pure: only
    its verdict matters to the destructor. *)
Definition Callback : Type := Level -> string -> string -> Z -> bool.

Inductive effect : Type -> Type :=
| MutexLock : effect unit                       (* log_mutex_.lock() *)
| MutexUnlock : effect unit                     (* log_mutex_.unlock() *)
| FileOpen : string -> openmode -> effect unit  (* log_file.open(path, mode) *)
| FileIsOpen : effect bool                      (* log_file.is_open() *)
| Insert : stream -> string -> effect unit      (* os << text *)
| Flush : stream -> effect unit                 (* os.flush() *)
| SetColor : Color -> effect unit               (* set_color(color) *)
| GetCallback : effect (option Callback)        (* log::get_callback() *)
| LocalTime : effect tm                         (* time(), localtime() *)
| AndroidLogPrint :
    android_LogPriority -> string -> string -> effect unit.

(** Programs: a result, or an operation and what follows its answer. *)
Inductive prog (A : Type) : Type :=
| Ret (a : A)
| Vis {X : Type} (e : effect X) (k : X -> prog A).

Arguments Ret {A} a.
Arguments Vis {A X} e k.

Fixpoint bind {A B : Type} (p : prog A) (f : A -> prog B) : prog B :=
  match p with
  | Ret a => f a
  | Vis e k => Vis e (fun x => bind (k x) f)
  end.

Definition call {X : Type} (e : effect X) : prog X := Vis e Ret.

Declare Scope prog_scope.
Delimit Scope prog_scope with prog.
Bind Scope prog_scope with prog.
Notation "x <- p ;; q" := (bind p (fun x => q))
  (at level 61, p at next level, right associativity) : prog_scope.
Notation "p ;; q" := (bind p (fun _ => q))
  (at level 61, right associativity) : prog_scope.
Open Scope prog_scope.

(** ** The header's functions *)

(** [std::lock_guard<std::mutex> lock(log_mutex_)] and the guard's
    destruction at the end of its scope. *)
Definition lock_guard : prog unit := call MutexLock.
Definition lock_guard_release : prog unit := call MutexUnlock.

Definition put (os : stream) (text : string) : prog unit := call (Insert os text).
Definition newline : string := String (ascii_of_nat 10) EmptyString.

(** [os << std::endl]: a newline, then a flush. *)
Definition endl (os : stream) : prog unit := put os newline ;; call (Flush os).

(** Modelled from the spec: [void set_color(Color color)] is declared in
    the header and its body is in another file.  By the spec it maps the
    colour to the terminal's escape sequence and writes it to the console;
    it is a primitive operation here, whose effect on the console is the
    entry [Escape color]. *)
Definition set_color (color : Color) : prog unit := call (SetColor color).

Definition set_log_file (file_path : string) : prog unit :=
  lock_guard ;;
  call (FileOpen file_path (mode_or ios_out ios_app)) ;;
  opened <- call FileIsOpen ;;
  (if negb opened
   then put cout "Failed to open log file: " ;; put cout file_path ;; endl cout
   else Ret tt) ;;
  put cout "Opened log file: " ;; put cout file_path ;; endl cout ;;
  lock_guard_release.

Definition get_log_stream : prog stream :=
  lock_guard ;;
  opened <- call FileIsOpen ;;
  if opened
  then lock_guard_release ;; Ret log_file
  else lock_guard_release ;; Ret cout.

(** The data members of [class LogDetailed].  The member [_lock_guard] owns
    [log_mutex_] from construction to destruction of the record; it has no
    data of its own. *)
Record LogDetailed : Type := Record_ {
  _log_level : Level;
  _s : string;
  _caller_filename : string;
  _caller_filenumber : Z
}.

Definition LogDetailed_ctor (filename : string) (filenumber : Z) : prog LogDetailed :=
  lock_guard ;;
  Ret {| _log_level := Debug; _s := EmptyString;
         _caller_filename := filename; _caller_filenumber := filenumber |}.

Definition assign_level (l : Level) (r : LogDetailed) : LogDetailed :=
  {| _log_level := l; _s := _s r;
     _caller_filename := _caller_filename r;
     _caller_filenumber := _caller_filenumber r |}.

(** Values that a [std::stringstream] accepts. *)
Class Streamable (T : Type) : Type := to_text : T -> string.
#[export] Instance Streamable_string : Streamable string := fun s => s.
#[export] Instance Streamable_int : Streamable Z := dec.

(** [template<typename T> LogDetailed& operator<<(const T& x)]. *)
Definition insert {T : Type} `{Streamable T} (r : LogDetailed) (x : T) : LogDetailed :=
  {| _log_level := _log_level r; _s := _s r ++ to_text x;
     _caller_filename := _caller_filename r;
     _caller_filenumber := _caller_filenumber r |}.

Notation "r << x" := (insert r x) (at level 50, left associativity).

(** The test that opens the destructor:
    [log::get_callback() && log::get_callback()(level, text, file, line)]. *)
Definition handled (cb : option Callback) (r : LogDetailed) : bool :=
  match cb with
  | Some f => f (_log_level r) (_s r) (_caller_filename r) (_caller_filenumber r)
  | None => false
  end.

(** The [#if ANDROID] part of the destructor. *)
Definition android_branch (r : LogDetailed) : prog unit :=
  match _log_level r with
  | Debug => call (AndroidLogPrint ANDROID_LOG_DEBUG "Mavsdk" (_s r))
  | Info => call (AndroidLogPrint ANDROID_LOG_INFO "Mavsdk" (_s r))
  | Warn => call (AndroidLogPrint ANDROID_LOG_WARN "Mavsdk" (_s r))
  | Err => call (AndroidLogPrint ANDROID_LOG_ERROR "Mavsdk" (_s r))
  end.

(** The [#else] part of the destructor. *)
Definition console_branch (r : LogDetailed) : prog unit :=
  match _log_level r with
  | Debug => set_color Green
  | Info => set_color Blue
  | Warn => set_color Yellow
  | Err => set_color Red
  end ;;
  timeinfo <- call LocalTime ;;
  (os <- get_log_stream ;; put os "[" ;; put os (time_buffer timeinfo)) ;;
  match _log_level r with
  | Debug => os <- get_log_stream ;; put os "|Debug] "
  | Info => os <- get_log_stream ;; put os "|Info ] "
  | Warn => os <- get_log_stream ;; put os "|Warn ] "
  | Err => os <- get_log_stream ;; put os "|Error] "
  end ;;
  set_color Reset ;;
  (os <- get_log_stream ;; put os (_s r)) ;;
  (os <- get_log_stream ;;
   put os " (" ;; put os (_caller_filename r) ;; put os ":" ;;
   put os (dec (_caller_filenumber r)) ;; put os ")") ;;
  (os <- get_log_stream ;; put os newline) ;;
  (os <- get_log_stream ;; call (Flush os)).

(** What the destructor does when the record is not intercepted. *)
Definition output_path (b : build) (r : LogDetailed) : prog unit :=
  if ANDROID b then android_branch r else console_branch r.

(** The body of [~LogDetailed()]. *)
Definition LogDetailed_dtor_body (b : build) (r : LogDetailed) : prog unit :=
  cb <- call GetCallback ;;
  if handled cb r then Ret tt else output_path b r.

(** [~LogDetailed()]: the body, then the members are destroyed, and with
    them [_lock_guard]. *)
Definition LogDetailed_dtor (b : build) (r : LogDetailed) : prog unit :=
  LogDetailed_dtor_body b r ;; lock_guard_release.

Definition LogDebugDetailed (filename : string) (filenumber : Z) : prog LogDetailed :=
  r <- LogDetailed_ctor filename filenumber ;; Ret (assign_level Debug r).
Definition LogInfoDetailed (filename : string) (filenumber : Z) : prog LogDetailed :=
  r <- LogDetailed_ctor filename filenumber ;; Ret (assign_level Info r).
Definition LogWarnDetailed (filename : string) (filenumber : Z) : prog LogDetailed :=
  r <- LogDetailed_ctor filename filenumber ;; Ret (assign_level Warn r).
Definition LogErrDetailed (filename : string) (filenumber : Z) : prog LogDetailed :=
  r <- LogDetailed_ctor filename filenumber ;; Ret (assign_level Err r).

(** The call-site macros, at a place [__FILE__ : __LINE__]. *)
Definition LogDebug (b : build) (__FILE__ : string) (__LINE__ : Z) : prog LogDetailed :=
  LogDebugDetailed (FILENAME b __FILE__) __LINE__.
Definition LogInfo (b : build) (__FILE__ : string) (__LINE__ : Z) : prog LogDetailed :=
  LogInfoDetailed (FILENAME b __FILE__) __LINE__.
Definition LogWarn (b : build) (__FILE__ : string) (__LINE__ : Z) : prog LogDetailed :=
  LogWarnDetailed (FILENAME b __FILE__) __LINE__.
Definition LogErr (b : build) (__FILE__ : string) (__LINE__ : Z) : prog LogDetailed :=
  LogErrDetailed (FILENAME b __FILE__) __LINE__.

(** A statement [LogXxx() << a << b ...;]: the temporary is constructed,
    the insertions [fill] it, and it is destroyed at the end of the
    statement. *)
Definition statement (b : build) (entry : prog LogDetailed)
    (fill : LogDetailed -> LogDetailed) : prog unit :=
  r <- entry ;; LogDetailed_dtor b (fill r).

(** ** The world the operations act on

    [log_mutex_] and [log_file] are declared [static] in the header: a
    [world] is the process as the code of one translation unit sees it, with
    that unit's mutex and stream.  The process as a whole, with the objects
    of every unit, is [process] below. *)

(** The state of the [std::ofstream] object [log_file]: the path of the
    file it is associated with, its error state, and the text inserted but
    not yet flushed. *)
Record ofstream : Type := Ofstream {
  associated : option string;
  failed : bool;
  pending : string
}.

Definition is_open (f : ofstream) : bool :=
  match associated f with Some _ => true | None => false end.

(** What has reached the console, oldest first. *)
Inductive shown : Type :=
| Text (s : string)      (* characters inserted into std::cout *)
| Escape (c : Color)     (* set_color(c) *)
| Flushed.               (* std::cout flushed *)

Record world : Type := World {
  log_mutex_ : option tid;              (* static std::mutex log_mutex_: its owner, if locked *)
  log_file_state : ofstream;
  console : list shown;
  disk : string -> option string;       (* contents of the files that exist *)
  openable : string -> bool;            (* paths that can be opened for writing *)
  callback : option Callback;           (* the callback registry *)
  clock : tm;                           (* local time *)
  logcat : list (android_LogPriority * string * string)
}.

Definition set_mutex (m : option tid) (w : world) : world :=
  {| log_mutex_ := m; log_file_state := log_file_state w; console := console w;
     disk := disk w; openable := openable w; callback := callback w;
     clock := clock w; logcat := logcat w |}.

Definition set_file (f : ofstream) (d : string -> option string) (w : world) : world :=
  {| log_mutex_ := log_mutex_ w; log_file_state := f; console := console w;
     disk := d; openable := openable w; callback := callback w;
     clock := clock w; logcat := logcat w |}.

Definition set_console (c : list shown) (w : world) : world :=
  {| log_mutex_ := log_mutex_ w; log_file_state := log_file_state w; console := c;
     disk := disk w; openable := openable w; callback := callback w;
     clock := clock w; logcat := logcat w |}.

Definition set_logcat (l : list (android_LogPriority * string * string)) (w : world) : world :=
  {| log_mutex_ := log_mutex_ w; log_file_state := log_file_state w; console := console w;
     disk := disk w; openable := openable w; callback := callback w;
     clock := clock w; logcat := l |}.

Definition content (d : string -> option string) (path : string) : string :=
  match d path with Some c => c | None => EmptyString end.

Definition store (d : string -> option string) (path c : string) : string -> option string :=
  fun q => if String.eqb q path then Some c else d q.

(** [std::ofstream::open]: fails, setting the error state, when the stream
    is already associated with a file or the file cannot be opened; on
    success the error state is cleared.  Existing contents are kept when
    [app] is in the mode and discarded otherwise. *)
Definition ofstream_open (path : string) (mode : openmode) (w : world) : world :=
  let f := log_file_state w in
  match associated f with
  | Some _ =>
      set_file {| associated := associated f; failed := true; pending := pending f |}
               (disk w) w
  | None =>
      if openable w path then
        set_file {| associated := Some path; failed := false; pending := EmptyString |}
                 (store (disk w) path
                    (if mode_app mode then content (disk w) path else EmptyString)) w
      else
        set_file {| associated := None; failed := true; pending := pending f |}
                 (disk w) w
  end.

(** [os << text]: on [log_file] the text is buffered, and nothing is
    inserted into a stream in error state. *)
Definition ostream_insert (os : stream) (text : string) (w : world) : world :=
  match os with
  | cout => set_console (console w ++ [Text text]) w
  | log_file =>
      let f := log_file_state w in
      if is_open f && negb (failed f) then
        set_file {| associated := associated f; failed := false;
                    pending := pending f ++ text |} (disk w) w
      else
        set_file {| associated := associated f; failed := true;
                    pending := pending f |} (disk w) w
  end.

(** [os.flush()]: buffered text is appended to the file. *)
Definition ostream_flush (os : stream) (w : world) : world :=
  match os with
  | cout => set_console (console w ++ [Flushed]) w
  | log_file =>
      let f := log_file_state w in
      match associated f with
      | Some path =>
          if failed f then w
          else set_file {| associated := associated f; failed := false;
                           pending := EmptyString |}
                        (store (disk w) path (content (disk w) path ++ pending f)) w
      | None => w
      end
  end.

(** One operation of thread [me].  [None]: the operation cannot take place
    now.  That is [lock()] on a mutex that is held: by another thread, the
    caller waits; by the caller itself, [std::mutex] is not recursive, the
    behaviour is undefined and in practice the caller waits for itself.
    ([unlock()] by a thread that does not hold the mutex does not occur.) *)
Definition handle (me : tid) {X : Type} (e : effect X) (w : world) : option (X * world) :=
  match e in effect X return option (X * world) with
  | MutexLock =>
      match log_mutex_ w with
      | None => Some (tt, set_mutex (Some me) w)
      | Some _ => None
      end
  | MutexUnlock =>
      match log_mutex_ w with
      | Some owner => if Nat.eqb owner me then Some (tt, set_mutex None w) else None
      | None => None
      end
  | FileOpen path mode => Some (tt, ofstream_open path mode w)
  | FileIsOpen => Some (is_open (log_file_state w), w)
  | Insert os text => Some (tt, ostream_insert os text w)
  | Flush os => Some (tt, ostream_flush os w)
  | SetColor c => Some (tt, set_console (console w ++ [Escape c]) w)
  | GetCallback => Some (callback w, w)
  | LocalTime => Some (clock w, w)
  | AndroidLogPrint prio tag text =>
      Some (tt, set_logcat (logcat w ++ [(prio, tag, text)]) w)
  end.

(** ** One thread, run to the end *)

Inductive outcome (A : Type) : Type :=
| Done (a : A) (w : world)    (* returned [a], leaving the world [w] *)
| Blocked (w : world).        (* stopped in [lock()], the world being [w] *)

Arguments Done {A} a w.
Arguments Blocked {A} w.

Fixpoint run (me : tid) {A : Type} (p : prog A) (w : world) : outcome A :=
  match p with
  | Ret a => Done a w
  | Vis e k =>
      match handle me e w with
      | Some (x, w') => run me (k x) w'
      | None => Blocked w
      end
  end.

Definition final {A : Type} (o : outcome A) : world :=
  match o with Done _ w => w | Blocked w => w end.

(** The characters on the console, escapes and flushes left out. *)
Fixpoint console_text (c : list shown) : string :=
  match c with
  | [] => EmptyString
  | Text s :: rest => s ++ console_text rest
  | _ :: rest => console_text rest
  end.

(** ** Program order

    The operations a program issues, in order, when each is answered by
    [answer]; requests for the mutex are listed like the others and are not
    arbitrated. *)

Inductive op : Type :=
| Op {X : Type} (e : effect X).

Definition oracle : Type := forall X : Type, effect X -> X.

Fixpoint issued {A : Type} (answer : oracle) (p : prog A) : list op :=
  match p with
  | Ret _ => []
  | Vis e k => Op e :: issued answer (k (answer _ e))
  end.

(** The operations that produce output, with the stream left out. *)
Inductive output_op : Type :=
| Colour (c : Color)
| Put (text : string)
| FlushOut.

Fixpoint outputs (l : list op) : list output_op :=
  match l with
  | [] => []
  | Op e :: rest =>
      match e with
      | SetColor c => Colour c :: outputs rest
      | Insert _ text => Put text :: outputs rest
      | Flush _ => FlushOut :: outputs rest
      | _ => outputs rest
      end
  end.

(** ** Several threads

    The threads share the world; one step is one operation of one thread,
    taken when [handle] lets it. *)





(** ** A process at start-up, and a client of the header *)

Definition main_thread : tid := 0%nat.

(** The process before any call: mutex free, no file open, nothing on the
    console, no callback registered.  Every path but those under
    ["/proc/"] can be opened; the clock reads 14:03:07. *)
Definition boot : world :=
  {| log_mutex_ := None;
     log_file_state := {| associated := None; failed := false; pending := EmptyString |};
     console := [];
     disk := fun _ => None;
     openable := fun path => negb (String.prefix "/proc/" path);
     callback := None;
     clock := {| tm_hour := 14; tm_min := 3; tm_sec := 7 |};
     logcat := [] |}.

(** The calls a thread can make. *)
Inductive api_call : Type :=
| call_set_log_file (file_path : string)
| call_get_log_stream
| call_log (level : Level) (__FILE__ : string) (__LINE__ : Z) (texts : list string).

Definition entry (b : build) (level : Level) : string -> Z -> prog LogDetailed :=
  match level with
  | Debug => LogDebug b
  | Info => LogInfo b
  | Warn => LogWarn b
  | Err => LogErr b
  end.

Definition perform (b : build) (c : api_call) : prog unit :=
  match c with
  | call_set_log_file file_path => set_log_file file_path
  | call_get_log_stream => get_log_stream ;; Ret tt
  | call_log level file line texts =>
      statement b (entry b level file line)
                (fun r => fold_left (fun r' (x : string) => r' << x) texts r)
  end.

Fixpoint client (b : build) (calls : list api_call) : prog unit :=
  match calls with
  | [] => Ret tt
  | c :: rest => perform b c ;; client b rest
  end.

(** ** Lock discipline

    [disciplined held Q p]: started by a thread that holds the mutex or not
    ([held]), [p] performs every operation on shared state while holding
    it, and ends in a state of ownership that [Q] accepts.  A [lock()] by
    the holder never returns, so nothing is asked of what follows it. *)
Fixpoint disciplined {A : Type} (held : bool) (Q : A -> bool -> Prop) (p : prog A) : Prop :=
  match p with
  | Ret a => Q a held
  | Vis e k =>
      match e with
      | MutexLock => held = true \/ forall x, disciplined true Q (k x)
      | MutexUnlock => held = true /\ forall x, disciplined false Q (k x)
      | _ => held = true /\ forall x, disciplined true Q (k x)
      end
  end.

Definition released {A : Type} : A -> bool -> Prop := fun _ held => held = false.


Definition is_lock (o : op) : bool :=
  match o with
  | Op e => match e with MutexLock => true | _ => false end
  end.

(** The texts inserted after the first colour reset. *)
Fixpoint put_after_reset (l : list output_op) : list string :=
  match l with
  | [] => []
  | Colour Reset :: rest =>
      flat_map (fun o => match o with Put text => [text] | _ => [] end) rest
  | _ :: rest => put_after_reset rest
  end.

(** An oracle for program order: no file open, no callback, 14:03:07. *)
Definition quiet : oracle :=
  fun X e =>
    match e in effect X return X with
    | MutexLock => tt
    | MutexUnlock => tt
    | FileOpen _ _ => tt
    | FileIsOpen => false
    | Insert _ _ => tt
    | Flush _ => tt
    | SetColor _ => tt
    | GetCallback => None
    | LocalTime => {| tm_hour := 14; tm_min := 3; tm_sec := 7 |}
    | AndroidLogPrint _ _ _ => tt
    end.

(** ** Names used in the statements *)

Definition level_colour (l : Level) : Color :=
  match l with Debug => Green | Info => Blue | Warn => Yellow | Err => Red end.

Definition level_label (l : Level) : string :=
  match l with Debug => "Debug" | Info => "Info " | Warn => "Warn " | Err => "Error" end.


(** What [set_log_file] prints, given whether [log_file] is open after the
    attempt. *)
Definition notices (path : string) (opened : bool) : list shown :=
  ((if opened then []
    else [Text "Failed to open log file: "; Text path; Text newline; Flushed]) ++
   [Text "Opened log file: "; Text path; Text newline; Flushed])%list.

(** The record of the statement [LogInfo() << "starting";] at line 42 of
    engine.cpp, when it is destroyed. *)
Definition starting_record : LogDetailed :=
  {| _log_level := Info; _s := "starting";
     _caller_filename := "engine.cpp"; _caller_filenumber := 42 |}.

(** [c] added to the console. *)
Definition print (c : list shown) (w : world) : world :=
  set_console (console w ++ c) w.

Definition returns {A : Type} (o : outcome A) : bool :=
  match o with Done _ _ => true | Blocked _ => false end.

(** The process after the call [set_log_file("flight.log")]. *)
Definition flight_open : world :=
  final (run main_thread (set_log_file "flight.log") boot).

(** The process after a call of [set_log_file] with a path that cannot be
    opened. *)
Definition fallen_back : world :=
  final (run main_thread (set_log_file "/proc/none/app.log") boot).

(** The statement [LogInfo() << "starting";] at line 42 of engine.cpp. *)
Definition log_starting (b : build) : prog unit :=
  statement b (LogInfo b "engine.cpp" 42) (fun r => r << "starting").

(** ** Names used in further statements *)

(** The insertions [<< x1 << x2 ...] of a statement, applied to its record. *)
Definition fill (texts : list string) (r : LogDetailed) : LogDetailed :=
  fold_left (fun r' (x : string) => r' << x) texts r.

(** The texts, one after the other. *)
Fixpoint glue (texts : list string) : string :=
  match texts with
  | [] => EmptyString
  | x :: rest => x ++ glue rest
  end.

(** The record a statement hands to its destructor. *)
Definition record_of (b : build) (level : Level) (__FILE__ : string) (__LINE__ : Z)
    (texts : list string) : LogDetailed :=
  {| _log_level := level; _s := glue texts;
     _caller_filename := FILENAME b __FILE__; _caller_filenumber := __LINE__ |}.


(** The fields of a [struct tm] that [localtime] fills are in range. *)
Definition in_range (t : tm) : Prop :=
  0 <= tm_hour t <= 23 /\ 0 <= tm_min t <= 59 /\ 0 <= tm_sec t <= 60.

Definition is_digit (c : ascii) : bool :=
  (48 <=? nat_of_ascii c)%nat && (nat_of_ascii c <=? 57)%nat.

(** A client that writes through the stream [get_log_stream()] returns:
    [get_log_stream() << text; get_log_stream().flush();]. *)
Definition write_through (text : string) : prog unit :=
  (os <- get_log_stream ;; put os text) ;;
  (os <- get_log_stream ;; call (Flush os)).




(** The log statement of a level, a place and texts. *)
Definition log_call (st : Level * string * Z * list string) : api_call :=
  match st with
  | (level, file, line, texts) => call_log level file line texts
  end.

(** ** Translation units

    [static std::mutex log_mutex_] and [static std::ofstream log_file] (lines
    36 and 38) have internal linkage: every translation unit that includes
    the header has its own mutex and its own stream.  [std::cout], the disk,
    the callback registry, the clock and the platform log are the
    process's. *)

Definition unit_id : Type := nat.

Record process : Type := Process {
  mutex_of : unit_id -> option tid;      (* log_mutex_ of each unit *)
  file_of : unit_id -> ofstream;         (* log_file of each unit *)
  std_cout : list shown;
  files_on_disk : string -> option string;
  can_be_opened : string -> bool;
  registered : option Callback;
  local_time : tm;
  platform_log : list (android_LogPriority * string * string)
}.

(** The process as the code of unit [u] sees it. *)
Definition view (u : unit_id) (p : process) : world :=
  {| log_mutex_ := mutex_of p u; log_file_state := file_of p u;
     console := std_cout p; disk := files_on_disk p;
     openable := can_be_opened p; callback := registered p;
     clock := local_time p; logcat := platform_log p |}.

(** The process after code of unit [u] has turned its view into [w]: the
    objects of the other units are as before. *)
Definition commit (u : unit_id) (w : world) (p : process) : process :=
  {| mutex_of := fun v => if Nat.eqb v u then log_mutex_ w else mutex_of p v;
     file_of := fun v => if Nat.eqb v u then log_file_state w else file_of p v;
     std_cout := console w; files_on_disk := disk w;
     can_be_opened := openable w; registered := callback w;
     local_time := clock w; platform_log := logcat w |}.

(** One operation of thread [me], performed by code that acts on the
    objects of unit [u]: the unit whose copy of the header's inline
    functions is executing, the calling unit when the call is expanded in
    line. *)
Definition handle_in (u : unit_id) (me : tid) {X : Type} (e : effect X) (p : process) :
    option (X * process) :=
  match handle me e (view u p) with
  | Some (x, w') => Some (x, commit u w' p)
  | None => None
  end.

Inductive result (A : Type) : Type :=
| Returned (a : A) (p : process)
| Waiting (p : process).

Arguments Returned {A} a p.
Arguments Waiting {A} p.

(** A program run by thread [me] on the objects of unit [u]. *)
Fixpoint run_in (u : unit_id) (me : tid) {A : Type} (c : prog A) (p : process) : result A :=
  match c with
  | Ret a => Returned a p
  | Vis e k =>
      match handle_in u me e p with
      | Some (x, p') => run_in u me (k x) p'
      | None => Waiting p
      end
  end.

Definition after {A : Type} (r : result A) : process :=
  match r with Returned _ p => p | Waiting p => p end.

Definition returned {A : Type} (r : result A) : option A :=
  match r with Returned a _ => Some a | Waiting _ => None end.




(** A process of any number of units at start-up; the rest as in [boot]. *)
Definition fresh : process :=
  {| mutex_of := fun _ => None;
     file_of := fun _ => {| associated := None; failed := false; pending := EmptyString |};
     std_cout := [];
     files_on_disk := fun _ => None;
     can_be_opened := fun path => negb (String.prefix "/proc/" path);
     registered := None;
     local_time := {| tm_hour := 14; tm_min := 3; tm_sec := 7 |};
     platform_log := [] |}.

(** Two units, [0] and [1]; two threads, [1] and [2]. *)
Definition unit_a : unit_id := 0%nat.
Definition unit_b : unit_id := 1%nat.
Definition thread_1 : tid := 1%nat.
Definition thread_2 : tid := 2%nat.

(** The process while thread 1 has a record of [LogInfo()] alive, built by
    code of unit [unit_a]. *)
Definition record_alive : process :=
  after (run_in unit_a thread_1 (LogInfo posix "engine.cpp" 42) fresh).


(** ** Output operations with their streams *)

Inductive routed_op : Type :=
| Escaped (c : Color)                    (* set_color(c) *)
| Inserted (os : stream) (text : string) (* os << text *)
| FlushedOut (os : stream).              (* os.flush() *)

Fixpoint routed (l : list op) : list routed_op :=
  match l with
  | [] => []
  | Op e :: rest =>
      match e with
      | SetColor c => Escaped c :: routed rest
      | Insert os text => Inserted os text :: routed rest
      | Flush os => FlushedOut os :: routed rest
      | _ => routed rest
      end
  end.

(** The process of [boot] with a callback registered that reports no record
    as handled, and with one that reports every record as handled. *)
Definition declining : world :=
  {| log_mutex_ := None; log_file_state := log_file_state boot; console := [];
     disk := disk boot; openable := openable boot;
     callback := Some (fun _ _ _ _ => false);
     clock := clock boot; logcat := [] |}.

Definition accepting : world :=
  {| log_mutex_ := None; log_file_state := log_file_state boot; console := [];
     disk := disk boot; openable := openable boot;
     callback := Some (fun _ _ _ _ => true);
     clock := clock boot; logcat := [] |}.

(** * Properties *)

(** Closed statements about concrete runs are settled by evaluation. *)
Ltac evaluate :=
  repeat (match goal with |- _ /\ _ => split end);
  vm_compute; reflexivity.

(** ** Running programs *)

Lemma run_bind (me : tid) {A B : Type} (p : prog A) (f : A -> prog B) (w : world) :
  run me (bind p f) w =
  match run me p w with
  | Done a w' => run me (f a) w'
  | Blocked w' => Blocked w'
  end.
Proof.
  revert w. induction p as [a | X e k IH]; intro w; simpl.
  - reflexivity.
  - destruct (handle me e w) as [[x w'] |]; [apply IH | reflexivity].
Qed.

Lemma lock_free (me : tid) (w : world) :
  log_mutex_ w = None -> handle me MutexLock w = Some (tt, set_mutex (Some me) w).
Proof. intro H. simpl. rewrite H. reflexivity. Qed.

Lemma unlock_own (me : tid) (w : world) :
  log_mutex_ w = Some me -> handle me MutexUnlock w = Some (tt, set_mutex None w).
Proof. intro H. simpl. rewrite H, Nat.eqb_refl. reflexivity. Qed.

(** [get_log_stream] called by the thread that holds the mutex, as the
    destructor does, stops in [lock()]. *)
Lemma get_log_stream_blocked (me owner : tid) {B : Type} (f : stream -> prog B) (w : world) :
  log_mutex_ w = Some owner ->
  run me (bind get_log_stream f) w = Blocked w.
Proof.
  intro H. rewrite run_bind. unfold get_log_stream, lock_guard, call. simpl.
  rewrite H. reflexivity.
Qed.

(** [get_log_stream] with the mutex free: the file stream if a file is
    open, the console otherwise; the world is as before. *)
Lemma get_log_stream_free (me : tid) (w : world) :
  log_mutex_ w = None ->
  run me get_log_stream w =
  Done (if is_open (log_file_state w) then log_file else cout) w.
Proof.
  intro H. unfold get_log_stream, lock_guard, lock_guard_release, call. simpl.
  rewrite H. simpl.
  destruct w as [m f c d o cb ck lc]; simpl in *. subst m.
  destruct (is_open f); simpl; rewrite Nat.eqb_refl; reflexivity.
Qed.

(** ** The FILENAME macro *)

Lemma strrchr_absent (s : string) (c : ascii) :
  CString.occurs c s = false <-> CString.strrchr s c = None.
Proof.
  induction s as [| a rest IH]; simpl.
  - split; reflexivity.
  - split.
    + intro H. apply orb_false_iff in H as [Ha Hrest].
      apply IH in Hrest. rewrite Hrest, Ha. reflexivity.
    + intro H. destruct (CString.strrchr rest c) eqn:E; [discriminate |].
      destruct (Ascii.eqb a c); [discriminate |].
      simpl. apply IH. reflexivity.
Qed.

Lemma strrchr_found (s : string) (c : ascii) (p : string) :
  CString.strrchr s c = Some p ->
  exists before after,
    s = before ++ String c after /\ p = String c after /\
    CString.occurs c after = false.
Proof.
  revert p. induction s as [| a rest IH]; simpl; intros p H.
  - discriminate.
  - destruct (CString.strrchr rest c) as [tail |] eqn:E.
    + injection H as <-.
      destruct (IH tail eq_refl) as (before & after & Hs & Hp & Hafter).
      exists (String a before), after. simpl. rewrite <- Hs. auto.
    + destruct (Ascii.eqb a c) eqn:Ea; [| discriminate].
      injection H as <-. apply Ascii.eqb_eq in Ea. subst a.
      exists EmptyString, rest. simpl. repeat split.
      apply strrchr_absent. exact E.
Qed.

Lemma append_assoc' (a b c : string) : (a ++ b) ++ c = a ++ (b ++ c).
Proof. induction a as [| x a IH]; simpl; [reflexivity | rewrite IH; reflexivity]. Qed.

Lemma entry_captures (me : tid) (b : build) (level : Level) (file : string) (line : Z)
    (w : world) :
  log_mutex_ w = None ->
  run me (entry b level file line) w =
  Done {| _log_level := level; _s := EmptyString;
          _caller_filename := FILENAME b file; _caller_filenumber := line |}
       (set_mutex (Some me) w).
Proof.
  intro H. destruct level; simpl; rewrite H; reflexivity.
Qed.

(** C6 (as stated, refuted): with WINDOWS defined the macro is [__FILE__]
    itself, and the record built at a call site in ["/a/b/c.cpp"] carries the
    whole path, not ["c.cpp"]. *)
Lemma FILENAME_windows_keeps_path :
  FILENAME windows "/a/b/c.cpp" = "/a/b/c.cpp" /\
  FILENAME windows "/a/b/c.cpp" <> "c.cpp" /\
  exists r w, run main_thread (LogInfo windows "/a/b/c.cpp" 7) boot = Done r w /\
              _caller_filename r = "/a/b/c.cpp".
Proof.
  split; [reflexivity |]. split; [discriminate |].
  eexists; eexists. split; reflexivity.
Qed.

(** C6 (amended): on a build without WINDOWS, the file name a call site
    captures is its path with every directory component removed: what
    follows the last ['/'], with no ['/'] left in it; ["/a/b/c.cpp"] gives
    ["c.cpp"], and a path without a separator is captured unchanged.  Each of
    the four entry points stores that name in the record. *)
Theorem FILENAME_strips_directories (b : build) (file : string) :
  WINDOWS b = false ->
  (exists dir, file = dir ++ FILENAME b file /\
               (dir = EmptyString \/ exists d, dir = d ++ "/")) /\
  CString.occurs slash (FILENAME b file) = false /\
  FILENAME b "/a/b/c.cpp" = "c.cpp" /\
  (CString.occurs slash file = false -> FILENAME b file = file) /\
  (forall me level line w, log_mutex_ w = None ->
     exists r w', run me (entry b level file line) w = Done r w' /\
                  _caller_filename r = FILENAME b file).
Proof.
  intro Hb. unfold FILENAME. rewrite Hb. simpl negb. cbv iota.
  repeat split.
  - destruct (CString.strrchr file slash) as [p |] eqn:E.
    + destruct (strrchr_found _ _ _ E) as (before & after & Hs & Hp & _).
      subst p. simpl. exists (before ++ "/"). split.
      * rewrite append_assoc'. exact Hs.
      * right. exists before. reflexivity.
    + exists EmptyString. split; [reflexivity | left; reflexivity].
  - destruct (CString.strrchr file slash) as [p |] eqn:E.
    + destruct (strrchr_found _ _ _ E) as (before & after & _ & Hp & Hafter).
      subst p. exact Hafter.
    + apply strrchr_absent. exact E.
  - intro H. apply strrchr_absent in H. rewrite H. reflexivity.
  - intros me level line w Hw. eexists; eexists. split.
    + apply entry_captures. exact Hw.
    + simpl. unfold FILENAME. rewrite Hb. reflexivity.
Qed.

Lemma FILENAME_strips_directories_witness :
  WINDOWS posix = false /\
  FILENAME posix "/src/mavsdk/core/engine.cpp" = "engine.cpp" /\
  CString.occurs slash (FILENAME posix "/src/mavsdk/core/engine.cpp") = false.
Proof.
  split; [reflexivity |]. split; [reflexivity |].
  exact (proj1 (proj2 (FILENAME_strips_directories posix
                         "/src/mavsdk/core/engine.cpp" eq_refl))).
Defined.

(** ** The timestamp *)

Lemma time_buffer_fields (t : tm) :
  time_buffer t =
  two_digits (hour12 (tm_hour t)) ++ ":" ++ two_digits (tm_min t) ++ ":" ++
  two_digits (tm_sec t).
Proof. reflexivity. Qed.

Lemma hour12_range (h : Z) : 1 <= hour12 h <= 12.
Proof.
  unfold hour12. pose proof (Z.mod_pos_bound h 12 ltac:(lia)).
  destruct (h mod 12 =? 0) eqn:E; [lia |].
  apply Z.eqb_neq in E. lia.
Qed.

Lemma hour12_afternoon (h : Z) : hour12 (h + 12) = hour12 h.
Proof.
  unfold hour12. replace (h + 12) with (h + 1 * 12) by lia.
  rewrite Z_mod_plus_full. reflexivity.
Qed.

Lemma two_digits_hour_distinct (h k : Z) :
  1 <= h <= 12 -> k = 0 \/ 13 <= k <= 23 -> two_digits h <> two_digits k.
Proof.
  intros Hh Hk.
  assert (Eh : h = 1 \/ h = 2 \/ h = 3 \/ h = 4 \/ h = 5 \/ h = 6 \/ h = 7 \/
               h = 8 \/ h = 9 \/ h = 10 \/ h = 11 \/ h = 12) by lia.
  assert (Ek : k = 0 \/ k = 13 \/ k = 14 \/ k = 15 \/ k = 16 \/ k = 17 \/
               k = 18 \/ k = 19 \/ k = 20 \/ k = 21 \/ k = 22 \/ k = 23) by lia.
  clear Hh Hk.
  repeat (destruct Eh as [Eh | Eh]; [subst h;
    repeat (destruct Ek as [Ek | Ek]; [subst k; vm_compute; discriminate |]);
    subst k; vm_compute; discriminate |]).
  subst h.
  repeat (destruct Ek as [Ek | Ek]; [subst k; vm_compute; discriminate |]).
  subst k; vm_compute; discriminate.
Qed.

(** ** The destructor, in program order *)

(** The output operations of the console branch, in program order, whatever
    the answers: colour, "[", time, level tag, reset, message, suffix,
    newline, flush. *)
Lemma console_branch_outputs (answer : oracle) (r : LogDetailed) :
  outputs (issued answer (console_branch r)) =
  [ Colour (level_colour (_log_level r));
    Put "["; Put (time_buffer (answer tm LocalTime));
    Put ("|" ++ level_label (_log_level r) ++ "] ");
    Colour Reset;
    Put (_s r);
    Put " ("; Put (_caller_filename r); Put ":"; Put (dec (_caller_filenumber r));
    Put ")";
    Put newline;
    FlushOut ].
Proof.
  destruct r as [l s f n]. unfold console_branch.
  destruct (answer bool FileIsOpen) eqn:E;
    destruct l; repeat (progress (cbn; rewrite ?E)); reflexivity.
Qed.

(** ** The destructor, run *)

(** The console branch run by the holder of the mutex, as in the
    destructor: the colour is set, and the first [get_log_stream()] stops in
    [lock()]. *)
Lemma console_branch_stops (me : tid) (r : LogDetailed) (w : world) :
  log_mutex_ w = Some me ->
  run me (console_branch r) w =
  Blocked (print [Escape (level_colour (_log_level r))] w).
Proof.
  intro H. destruct r as [l s fn n]. unfold console_branch.
  destruct l; simpl; rewrite H; reflexivity.
Qed.

Lemma console_branch_blocked (me : tid) {B : Type} (r : LogDetailed)
    (f : unit -> prog B) (w : world) :
  log_mutex_ w = Some me ->
  run me (bind (console_branch r) f) w =
  Blocked (print [Escape (level_colour (_log_level r))] w).
Proof.
  intro H. rewrite run_bind, (console_branch_stops me r w H). reflexivity.
Qed.


Lemma dtor_handled (me : tid) (b : build) (r : LogDetailed) (w : world) :
  log_mutex_ w = Some me ->
  handled (callback w) r = true ->
  run me (LogDetailed_dtor b r) w = Done tt (set_mutex None w).
Proof.
  intros Hm Hh. unfold LogDetailed_dtor, LogDetailed_dtor_body.
  rewrite run_bind. simpl. rewrite Hh. simpl. rewrite Hm, Nat.eqb_refl. reflexivity.
Qed.

Lemma dtor_unhandled (me : tid) (b : build) (r : LogDetailed) (w : world) :
  handled (callback w) r = false ->
  run me (LogDetailed_dtor b r) w = run me (output_path b r ;; lock_guard_release) w.
Proof.
  intro Hh. unfold LogDetailed_dtor, LogDetailed_dtor_body.
  rewrite !run_bind. simpl. rewrite Hh. reflexivity.
Qed.


Lemma output_path_console (me : tid) (b : build) (r : LogDetailed) (w : world) :
  log_mutex_ w = Some me ->
  ANDROID b = false ->
  run me (output_path b r ;; lock_guard_release) w =
  Blocked (print [Escape (level_colour (_log_level r))] w).
Proof.
  intros Hm Hb. unfold output_path. rewrite Hb.
  apply console_branch_blocked. exact Hm.
Qed.

(** C2 (the code at the failing input): the statement
    [LogInfo() << "starting";] at engine.cpp:42 on a build without ANDROID,
    with a callback registered.  When the callback reports "handled" the
    statement returns and the process is exactly as before: nothing was
    written.  When it reports "not handled" the normal output path is
    entered and does not run to its end: the statement does not return, the
    console has received the colour escape and no character of the line,
    and nothing is in the file, its buffer or the platform log; what has
    reached the console as text is the same as in the handled case.  On
    ANDROID the statement that is not handled returns and its message is in
    the platform log. *)
Theorem not_handled_writes_no_line :
  run main_thread (log_starting posix) accepting = Done tt accepting /\
  (returns (run main_thread (log_starting posix) declining) = false /\
   console (final (run main_thread (log_starting posix) declining)) = [Escape Blue] /\
   console_text (console (final (run main_thread (log_starting posix) declining))) =
   EmptyString /\
   pending (log_file_state (final (run main_thread (log_starting posix) declining))) =
   EmptyString /\
   logcat (final (run main_thread (log_starting posix) declining)) = []) /\
  console_text (console (final (run main_thread (log_starting posix) declining))) =
  console_text (console (final (run main_thread (log_starting posix) accepting))) /\
  (returns (run main_thread (log_starting android) declining) = true /\
   logcat (final (run main_thread (log_starting android) declining)) =
   [(ANDROID_LOG_INFO, "Mavsdk", "starting")]).
Proof. evaluate. Qed.

(** ** Selecting the file sink *)

Lemma run_call (me : tid) {X B : Type} (e : effect X) (f : X -> prog B) (w : world) :
  run me (bind (call e) f) w =
  match handle me e w with
  | Some (x, w') => run me (f x) w'
  | None => Blocked w
  end.
Proof. reflexivity. Qed.

Lemma open_set_mutex (path : string) (mode : openmode) (m : option tid) (w : world) :
  ofstream_open path mode (set_mutex m w) = set_mutex m (ofstream_open path mode w).
Proof.
  unfold ofstream_open. simpl.
  destruct (associated (log_file_state w)); [reflexivity |].
  destruct (openable w path); reflexivity.
Qed.

Lemma open_keeps_mutex (path : string) (mode : openmode) (w : world) :
  log_mutex_ (ofstream_open path mode w) = log_mutex_ w.
Proof.
  unfold ofstream_open.
  destruct (associated (log_file_state w)); [reflexivity |].
  destruct (openable w path); reflexivity.
Qed.

Lemma open_keeps_console (path : string) (mode : openmode) (w : world) :
  console (ofstream_open path mode w) = console w.
Proof.
  unfold ofstream_open.
  destruct (associated (log_file_state w)); [reflexivity |].
  destruct (openable w path); reflexivity.
Qed.

Lemma release_after_console (c : list shown) (m : option tid) (w : world) :
  log_mutex_ w = None ->
  set_mutex None (set_console c (set_mutex m w)) = set_console c w.
Proof. intro H. destruct w; simpl in H; subst; reflexivity. Qed.

Lemma print_print (c1 c2 : list shown) (w : world) :
  print c2 (print c1 w) = print (c1 ++ c2) w.
Proof. destruct w. unfold print. simpl. rewrite <- app_assoc. reflexivity. Qed.

Lemma run_put (me : tid) {B : Type} (text : string) (f : unit -> prog B) (w : world) :
  run me (bind (put cout text) f) w = run me (f tt) (print [Text text] w).
Proof. reflexivity. Qed.

Lemma run_endl (me : tid) {B : Type} (f : unit -> prog B) (w : world) :
  run me (bind (endl cout) f) w = run me (f tt) (print [Text newline; Flushed] w).
Proof.
  change (run me (bind (endl cout) f) w)
    with (run me (f tt) (print [Flushed] (print [Text newline] w))).
  rewrite print_print. reflexivity.
Qed.

Lemma run_line (me : tid) (a b : string) (w : world) :
  run me (put cout a ;; put cout b ;; endl cout) w =
  Done tt (print [Text a; Text b; Text newline; Flushed] w).
Proof.
  rewrite !run_put.
  change (endl cout) with (bind (endl cout) (@Ret unit)).
  rewrite run_endl, !print_print. reflexivity.
Qed.

Lemma run_line_release (me : tid) (a b : string) (w : world) :
  log_mutex_ w = Some me ->
  run me (put cout a ;; put cout b ;; endl cout ;; lock_guard_release) w =
  Done tt (set_mutex None (print [Text a; Text b; Text newline; Flushed] w)).
Proof.
  intro H. rewrite !run_put, run_endl, !print_print.
  unfold lock_guard_release, call. cbn [run app].
  rewrite unlock_own; [reflexivity | exact H].
Qed.

(** The notices, printed by the holder of the mutex. *)
Lemma print_notices (me : tid) (path : string) (opened : bool) (w : world) :
  log_mutex_ w = Some me ->
  run me
    ((if negb opened
      then put cout "Failed to open log file: " ;; put cout path ;; endl cout
      else Ret tt) ;;
     put cout "Opened log file: " ;; put cout path ;; endl cout ;;
     lock_guard_release) w =
  Done tt (set_mutex None (print (notices path opened) w)).
Proof.
  intro H. rewrite run_bind. unfold notices. destruct opened; cbn [negb].
  - cbn [run]. rewrite run_line_release; [reflexivity | exact H].
  - rewrite run_line, run_line_release; [| exact H].
    rewrite print_print. reflexivity.
Qed.

Lemma set_log_file_run (me : tid) (w : world) (path : string) :
  log_mutex_ w = None ->
  run me (set_log_file path) w =
  Done tt
    (set_console
       (console w ++
        notices path
          (is_open (log_file_state (ofstream_open path (mode_or ios_out ios_app) w))))
       (ofstream_open path (mode_or ios_out ios_app) w)).
Proof.
  intro H. unfold set_log_file, lock_guard.
  rewrite run_call, (lock_free me w H).
  rewrite run_call. cbv beta iota delta [handle].
  rewrite run_call. cbv beta iota delta [handle].
  rewrite print_notices.
  - rewrite open_set_mutex. unfold print.
    cbn [log_file_state console set_mutex].
    rewrite release_after_console; [| rewrite open_keeps_mutex; exact H].
    rewrite open_keeps_console. reflexivity.
  - rewrite open_keeps_mutex. reflexivity.
Qed.

Lemma console_text_app (a b : list shown) :
  console_text (a ++ b) = console_text a ++ console_text b.
Proof.
  induction a as [| x a IH]; simpl; [reflexivity |].
  destruct x; simpl; rewrite IH; [| reflexivity | reflexivity].
  symmetry. apply append_assoc'.
Qed.

Lemma notices_text (path : string) (opened : bool) :
  console_text (notices path opened) =
  (if opened then EmptyString
   else "Failed to open log file: " ++ path ++ newline) ++
  "Opened log file: " ++ path ++ newline.
Proof.
  unfold notices, newline. destruct opened; simpl.
  - reflexivity.
  - rewrite append_assoc'. reflexivity.
Qed.

Lemma open_when_open (w : world) (p q : string) (mode : openmode) :
  associated (log_file_state w) = Some p ->
  ofstream_open q mode w =
  set_file {| associated := Some p; failed := true;
              pending := pending (log_file_state w) |} (disk w) w.
Proof. intro H. unfold ofstream_open. rewrite H. reflexivity. Qed.

Lemma open_unwritable (w : world) (q : string) (mode : openmode) :
  associated (log_file_state w) = None ->
  openable w q = false ->
  ofstream_open q mode w =
  set_file {| associated := None; failed := true;
              pending := pending (log_file_state w) |} (disk w) w.
Proof. intros H Hq. unfold ofstream_open. rewrite H, Hq. reflexivity. Qed.

Lemma open_writable (w : world) (q : string) (mode : openmode) :
  associated (log_file_state w) = None ->
  openable w q = true ->
  ofstream_open q mode w =
  set_file {| associated := Some q; failed := false; pending := EmptyString |}
           (store (disk w) q
              (if mode_app mode then content (disk w) q else EmptyString)) w.
Proof. intros H Hq. unfold ofstream_open. rewrite H, Hq. reflexivity. Qed.

Lemma is_open_associated (f : ofstream) :
  is_open f = false <-> associated f = None.
Proof. unfold is_open. destruct (associated f); split; congruence. Qed.

(** C9 (as stated, refuted): with "flight.log" open, the call
    [set_log_file("second.log")] returns after a failed [open] (the stream
    is left in error state, still on "flight.log"), and the console receives
    the success notice alone: no failure notice is printed for this
    failure. *)
Lemma failed_open_without_failure_notice :
  run main_thread (set_log_file "flight.log") boot = Done tt flight_open /\
  returns (run main_thread (set_log_file "second.log") flight_open) = true /\
  failed (log_file_state
            (final (run main_thread (set_log_file "second.log") flight_open))) = true /\
  associated (log_file_state
                (final (run main_thread (set_log_file "second.log") flight_open))) =
    Some "flight.log" /\
  console_text
    (console (final (run main_thread (set_log_file "second.log") flight_open))) =
    console_text (console flight_open) ++ "Opened log file: second.log" ++ newline.
Proof. evaluate. Qed.

(** C9 (amended): every call of [set_log_file] that gets the mutex writes
    "Opened log file: <path>" to the console, also when the open failed.
    When no file is open after the attempt, the failure notice is printed
    first and the success notice after it; when the attempt fails because a
    file was already open, the stream stays open and the success notice is
    printed alone. *)
Theorem set_log_file_notices (me : tid) (w : world) (path : string) :
  log_mutex_ w = None ->
  exists w',
    run me (set_log_file path) w = Done tt w' /\
    console_text (console w') =
      console_text (console w) ++
      (if is_open (log_file_state w') then EmptyString
       else "Failed to open log file: " ++ path ++ newline) ++
      "Opened log file: " ++ path ++ newline /\
    (is_open (log_file_state w) = true ->
       is_open (log_file_state w') = true /\ failed (log_file_state w') = true) /\
    (is_open (log_file_state w) = false -> openable w path = false ->
       is_open (log_file_state w') = false /\ failed (log_file_state w') = true).
Proof.
  intro Hm. eexists. split; [apply set_log_file_run; exact Hm |].
  split; [| split].
  - simpl console. rewrite console_text_app, notices_text. reflexivity.
  - intro Ho. unfold is_open in Ho.
    destruct (associated (log_file_state w)) as [p |] eqn:Ea; [| discriminate].
    rewrite (open_when_open w p path _ Ea). split; reflexivity.
  - intros Ho Hp. apply is_open_associated in Ho.
    rewrite (open_unwritable w path _ Ho Hp). split; reflexivity.
Qed.

Lemma set_log_file_notices_witness :
  exists w',
    run main_thread (set_log_file "/proc/none/app.log") boot = Done tt w' /\
    console_text (console w') =
      "Failed to open log file: /proc/none/app.log" ++ newline ++
      "Opened log file: /proc/none/app.log" ++ newline.
Proof.
  destruct (set_log_file_notices main_thread boot "/proc/none/app.log" eq_refl)
    as (w' & Hrun & Htext & _ & Hclosed).
  exists w'. split; [exact Hrun |].
  rewrite Htext. destruct (Hclosed eq_refl eq_refl) as [-> _]. reflexivity.
Defined.

(** C4 (as stated, refuted): (1) with "flight.log" open, selecting a path
    that cannot be opened prints no failure notice; (2) with no file open,
    the log statement that follows the failed selection stops in [lock()]
    inside the destructor, and its line never reaches the console; (3) on an
    ANDROID build the statement returns, its message in the platform log and
    not on the console. *)
Lemma unwritable_path_then_log :
  (openable flight_open "/proc/none/app.log" = false /\
   returns (run main_thread (set_log_file "/proc/none/app.log") flight_open) = true /\
   console_text
     (console (final (run main_thread (set_log_file "/proc/none/app.log") flight_open))) =
   console_text (console flight_open) ++
   "Opened log file: /proc/none/app.log" ++ newline) /\
  (run main_thread (set_log_file "/proc/none/app.log") boot = Done tt fallen_back /\
   returns (run main_thread (log_starting posix) fallen_back) = false /\
   console_text (console (final (run main_thread (log_starting posix) fallen_back))) =
   "Failed to open log file: /proc/none/app.log" ++ newline ++
   "Opened log file: /proc/none/app.log" ++ newline) /\
  (returns (run main_thread (log_starting android) fallen_back) = true /\
   logcat (final (run main_thread (log_starting android) fallen_back)) =
   [(ANDROID_LOG_INFO, "Mavsdk", "starting")] /\
   console (final (run main_thread (log_starting android) fallen_back)) =
   console fallen_back).
Proof. evaluate. Qed.

(** C4 (amended): when no log file is open, for every path that cannot be
    opened for appending, [set_log_file] writes a failure notice to the
    console and leaves the active sink unchanged: no file is open, the disk
    is as before, and [get_log_stream] returns the console stream. *)
Theorem set_log_file_unwritable (me : tid) (w : world) (path : string) :
  log_mutex_ w = None ->
  is_open (log_file_state w) = false ->
  openable w path = false ->
  exists w',
    run me (set_log_file path) w = Done tt w' /\
    console_text (console w') =
      console_text (console w) ++
      "Failed to open log file: " ++ path ++ newline ++
      "Opened log file: " ++ path ++ newline /\
    is_open (log_file_state w') = false /\
    disk w' = disk w /\
    run me get_log_stream w' = Done cout w'.
Proof.
  intros Hm Ho Hp. apply is_open_associated in Ho.
  eexists. split; [apply set_log_file_run; exact Hm |].
  rewrite (open_unwritable w path _ Ho Hp).
  split; [| split; [| split]].
  - simpl. rewrite console_text_app, notices_text.
    f_equal. unfold newline. simpl. rewrite append_assoc'. reflexivity.
  - reflexivity.
  - reflexivity.
  - rewrite get_log_stream_free; [reflexivity | exact Hm].
Qed.

Lemma set_log_file_unwritable_witness :
  exists w',
    run main_thread (set_log_file "/proc/none/app.log") boot = Done tt w' /\
    is_open (log_file_state w') = false /\
    run main_thread get_log_stream w' = Done cout w'.
Proof.
  destruct (set_log_file_unwritable main_thread boot "/proc/none/app.log"
              eq_refl eq_refl eq_refl) as (w' & Hrun & _ & Hclosed & _ & Hsink).
  exists w'. split; [exact Hrun |]. split; [exact Hclosed | exact Hsink].
Defined.

Lemma content_store (d : string -> option string) (path c : string) :
  content (store d path c) path = c.
Proof. unfold content, store. rewrite String.eqb_refl. reflexivity. Qed.

Lemma store_other (d : string -> option string) (path c q : string) :
  q <> path -> store d path c q = d q.
Proof.
  intro H. unfold store. apply String.eqb_neq in H. rewrite H. reflexivity.
Qed.

(** C5 (as stated, refuted): (1) with "flight.log" open, "second.log" can
    be opened, yet [set_log_file("second.log")] leaves "flight.log" the
    active sink and does not create the second file; (2) after
    [set_log_file("flight.log")] on a fresh process, the log statement that
    follows stops in [lock()] inside the destructor: nothing is appended to
    the file and nothing is left in its buffer. *)
Lemma openable_path_not_selected :
  (openable flight_open "second.log" = true /\
   returns (run main_thread (set_log_file "second.log") flight_open) = true /\
   associated (log_file_state
                 (final (run main_thread (set_log_file "second.log") flight_open))) =
   Some "flight.log" /\
   disk (final (run main_thread (set_log_file "second.log") flight_open)) "second.log" =
   None) /\
  (run main_thread (set_log_file "flight.log") boot = Done tt flight_open /\
   associated (log_file_state flight_open) = Some "flight.log" /\
   returns (run main_thread (log_starting posix) flight_open) = false /\
   disk (final (run main_thread (log_starting posix) flight_open)) "flight.log" =
   Some EmptyString /\
   pending (log_file_state (final (run main_thread (log_starting posix) flight_open))) =
   EmptyString).
Proof. evaluate. Qed.

(** C5 (amended): when no log file is open, for every path that can be
    opened, [set_log_file] opens it in append mode: the contents of the file
    and of every other file are as before, text inserted and flushed
    afterwards goes to the end of the file, and the file is the active sink.
    [get_log_stream] returns the file stream whenever a file is open and the
    console stream otherwise. *)
Theorem set_log_file_appends (me : tid) (w : world) (path : string) :
  log_mutex_ w = None ->
  is_open (log_file_state w) = false ->
  openable w path = true ->
  (exists w',
     run me (set_log_file path) w = Done tt w' /\
     associated (log_file_state w') = Some path /\
     failed (log_file_state w') = false /\
     content (disk w') path = content (disk w) path /\
     (forall q, q <> path -> disk w' q = disk w q) /\
     (forall text,
        content (disk (ostream_flush log_file (ostream_insert log_file text w'))) path =
        content (disk w) path ++ text) /\
     run me get_log_stream w' = Done log_file w') /\
  (forall v, log_mutex_ v = None ->
     run me get_log_stream v =
     Done (if is_open (log_file_state v) then log_file else cout) v).
Proof.
  intros Hm Ho Hp. apply is_open_associated in Ho. split.
  - eexists. split; [apply set_log_file_run; exact Hm |].
    rewrite (open_writable w path _ Ho Hp).
    repeat match goal with |- _ /\ _ => split end.
    + reflexivity.
    + reflexivity.
    + simpl. apply content_store.
    + intros q Hq. simpl. apply store_other. exact Hq.
    + intro text. unfold ostream_flush, ostream_insert. simpl.
      rewrite content_store. rewrite content_store. reflexivity.
    + rewrite get_log_stream_free; [reflexivity | exact Hm].
  - intros v Hv. apply get_log_stream_free. exact Hv.
Qed.

Lemma set_log_file_appends_witness :
  exists w',
    run main_thread (set_log_file "flight.log") boot = Done tt w' /\
    associated (log_file_state w') = Some "flight.log" /\
    run main_thread get_log_stream w' = Done log_file w'.
Proof.
  destruct (proj1 (set_log_file_appends main_thread boot "flight.log"
                     eq_refl eq_refl eq_refl))
    as (w' & Hrun & Hfile & _ & _ & _ & _ & Hsink).
  exists w'. split; [exact Hrun |]. split; [exact Hfile | exact Hsink].
Defined.

(** ** The first file stays *)



(** *** Translation units *)








(** ** Dispatch on the console branch *)

(** The destructor of a record that is not intercepted, on a build without
    ANDROID: it sets the colour and stops in the [lock()] of the first
    [get_log_stream()], the record's own [_lock_guard] holding the mutex. *)
Lemma dtor_console_blocked (me : tid) (b : build) (r : LogDetailed) (w : world) :
  log_mutex_ w = Some me ->
  ANDROID b = false ->
  handled (callback w) r = false ->
  run me (LogDetailed_dtor b r) w =
  Blocked (print [Escape (level_colour (_log_level r))] w).
Proof.
  intros Hm Hb Hh. rewrite (dtor_unhandled me b r w Hh).
  apply output_path_console; assumption.
Qed.

(** C3 (the code at the failing input): the statement
    [LogInfo() << "starting";] at engine.cpp:42, no callback registered.
    With the console as sink the statement does not return: the mutex is
    still held by the thread, the console has received the colour escape and
    no character of the line.  With "flight.log" as sink it does not return
    either, and the file and the stream's buffer are empty.  The destructor
    itself, run on the record by the thread holding the mutex, is where the
    run stops. *)
Theorem console_dispatch_stops_in_lock :
  (returns (run main_thread (log_starting posix) boot) = false /\
   log_mutex_ (final (run main_thread (log_starting posix) boot)) = Some main_thread /\
   console (final (run main_thread (log_starting posix) boot)) = [Escape Blue] /\
   console_text (console (final (run main_thread (log_starting posix) boot))) =
   EmptyString) /\
  (returns (run main_thread (log_starting posix) flight_open) = false /\
   disk (final (run main_thread (log_starting posix) flight_open)) "flight.log" =
   Some EmptyString /\
   pending (log_file_state (final (run main_thread (log_starting posix) flight_open))) =
   EmptyString) /\
  run main_thread (LogDetailed_dtor posix starting_record)
      (set_mutex (Some main_thread) boot) =
  Blocked (print [Escape Blue] (set_mutex (Some main_thread) boot)).
Proof.
  split; [evaluate |]. split; [evaluate |].
  apply (dtor_console_blocked main_thread posix starting_record); reflexivity.
Qed.

(** C7 (as stated, refuted): in the destructor of the record of
    [LogInfo() << "starting";] at engine.cpp:42, the colour reset is issued
    directly after the level tag; the message, the (file:line) suffix and the
    newline are inserted after it. *)
Lemma reset_precedes_message :
  outputs (issued quiet (console_branch starting_record)) =
  [ Colour Blue; Put "["; Put "02:03:07"; Put "|Info ] ";
    Colour Reset;
    Put "starting"; Put " ("; Put "engine.cpp"; Put ":"; Put "42"; Put ")";
    Put newline; FlushOut ] /\
  put_after_reset (outputs (issued quiet (console_branch starting_record))) =
  ["starting"; " ("; "engine.cpp"; ":"; "42"; ")"; newline] /\
  put_after_reset (outputs (issued quiet (console_branch starting_record))) <> [].
Proof.
  split; [vm_compute; reflexivity |]. split; [vm_compute; reflexivity |].
  vm_compute. discriminate.
Qed.

(** The output operations of the console branch with their streams, in
    program order: every insertion and the flush go to the stream that
    [get_log_stream()] returns, the file stream when [is_open()] answers
    true and [std::cout] otherwise. *)
Lemma console_branch_routed (answer : oracle) (r : LogDetailed) :
  routed (issued answer (console_branch r)) =
  [ Escaped (level_colour (_log_level r));
    Inserted (if answer bool FileIsOpen then log_file else cout) "[";
    Inserted (if answer bool FileIsOpen then log_file else cout)
             (time_buffer (answer tm LocalTime));
    Inserted (if answer bool FileIsOpen then log_file else cout)
             ("|" ++ level_label (_log_level r) ++ "] ");
    Escaped Reset;
    Inserted (if answer bool FileIsOpen then log_file else cout) (_s r);
    Inserted (if answer bool FileIsOpen then log_file else cout) " (";
    Inserted (if answer bool FileIsOpen then log_file else cout) (_caller_filename r);
    Inserted (if answer bool FileIsOpen then log_file else cout) ":";
    Inserted (if answer bool FileIsOpen then log_file else cout)
             (dec (_caller_filenumber r));
    Inserted (if answer bool FileIsOpen then log_file else cout) ")";
    Inserted (if answer bool FileIsOpen then log_file else cout) newline;
    FlushedOut (if answer bool FileIsOpen then log_file else cout) ].
Proof.
  destruct r as [l s f n]. unfold console_branch.
  destruct (answer bool FileIsOpen) eqn:E;
    destruct l; repeat (progress (cbn; rewrite ?E)); reflexivity.
Qed.

(** C7 (amended): on the console/file branch the destructor issues its
    output operations in this order: the console colour of the level (Debug
    green, Info blue, Warn yellow, Error red); the insertions of "[", the
    time and the level tag into the active sink; the colour reset; the
    insertions of the message, of " (", file, ":", line, ")" and of the
    newline into the active sink; the flush of the active sink.  The reset
    thus follows the level tag and precedes the message.  The active sink
    is the stream [get_log_stream()] returns: [log_file] if a file is open,
    [std::cout] otherwise.  Run by the thread that holds the mutex, the
    branch does set that colour on the console. *)
Theorem console_branch_order (answer : oracle) (r : LogDetailed) :
  routed (issued answer (console_branch r)) =
  [ Escaped (match _log_level r with
             | Debug => Green | Info => Blue | Warn => Yellow | Err => Red
             end);
    Inserted (if answer bool FileIsOpen then log_file else cout) "[";
    Inserted (if answer bool FileIsOpen then log_file else cout)
             (time_buffer (answer tm LocalTime));
    Inserted (if answer bool FileIsOpen then log_file else cout)
             (match _log_level r with
              | Debug => "|Debug] " | Info => "|Info ] "
              | Warn => "|Warn ] " | Err => "|Error] "
              end);
    Escaped Reset;
    Inserted (if answer bool FileIsOpen then log_file else cout) (_s r);
    Inserted (if answer bool FileIsOpen then log_file else cout) " (";
    Inserted (if answer bool FileIsOpen then log_file else cout) (_caller_filename r);
    Inserted (if answer bool FileIsOpen then log_file else cout) ":";
    Inserted (if answer bool FileIsOpen then log_file else cout)
             (dec (_caller_filenumber r));
    Inserted (if answer bool FileIsOpen then log_file else cout) ")";
    Inserted (if answer bool FileIsOpen then log_file else cout) newline;
    FlushedOut (if answer bool FileIsOpen then log_file else cout) ] /\
  (forall me w,
     log_mutex_ w = None ->
     is_open (log_file_state w) = answer bool FileIsOpen ->
     run me get_log_stream w =
     Done (if answer bool FileIsOpen then log_file else cout) w) /\
  (forall me w, log_mutex_ w = Some me ->
     console (final (run me (console_branch r) w)) =
     (console w ++
      [Escape (match _log_level r with
               | Debug => Green | Info => Blue | Warn => Yellow | Err => Red
               end)])%list).
Proof.
  split; [| split].
  - rewrite console_branch_routed. destruct (_log_level r); reflexivity.
  - intros me w Hm Ho. rewrite (get_log_stream_free me w Hm), Ho. reflexivity.
  - intros me w H. rewrite (console_branch_stops me r w H).
    destruct (_log_level r); reflexivity.
Qed.

Lemma console_branch_order_witness :
  run main_thread get_log_stream flight_open = Done log_file flight_open /\
  console (final (run main_thread (console_branch starting_record)
                    (set_mutex (Some main_thread) boot))) = [Escape Blue].
Proof.
  split.
  - exact (proj1 (proj2 (console_branch_order
                           (fun X e =>
                              match e in effect X return X with
                              | FileIsOpen => true
                              | e' => quiet _ e'
                              end) starting_record))
             main_thread flight_open eq_refl eq_refl).
  - exact (proj2 (proj2 (console_branch_order quiet starting_record))
             main_thread (set_mutex (Some main_thread) boot) eq_refl).
Defined.

(** ** The timestamp of a line *)

(** C10: the timestamp the destructor inserts after "[" is the local time
    formatted with "%I:%M:%S": hour, minute and second as two digits each,
    the hour on the 12-hour clock.  The hour field is one of 01 .. 12, never
    00 nor 13 .. 23, and a time twelve hours later gives the same
    timestamp. *)
Theorem timestamp_twelve_hour_clock (t : tm) :
  strftime 10 "%I:%M:%S" t = Some (time_buffer t) /\
  time_buffer t =
    two_digits (hour12 (tm_hour t)) ++ ":" ++ two_digits (tm_min t) ++ ":" ++
    two_digits (tm_sec t) /\
  substring 0 2 (time_buffer t) = two_digits (hour12 (tm_hour t)) /\
  1 <= hour12 (tm_hour t) <= 12 /\
  (forall k, k = 0 \/ 13 <= k <= 23 ->
     substring 0 2 (time_buffer t) <> two_digits k) /\
  time_buffer {| tm_hour := tm_hour t + 12; tm_min := tm_min t; tm_sec := tm_sec t |} =
    time_buffer t /\
  (forall answer r,
     nth 2 (outputs (issued answer (console_branch r))) FlushOut =
     Put (time_buffer (answer tm LocalTime))).
Proof.
  split; [reflexivity |]. split; [reflexivity |]. split; [reflexivity |].
  split; [apply hour12_range |]. split; [| split].
  - intros k Hk. change (substring 0 2 (time_buffer t))
      with (two_digits (hour12 (tm_hour t))).
    apply two_digits_hour_distinct; [apply hour12_range | exact Hk].
  - rewrite !time_buffer_fields. simpl tm_hour. simpl tm_min. simpl tm_sec.
    rewrite hour12_afternoon. reflexivity.
  - intros answer r. rewrite console_branch_outputs. reflexivity.
Qed.

Lemma timestamp_twelve_hour_clock_witness :
  time_buffer {| tm_hour := 14; tm_min := 3; tm_sec := 7 |} = "02:03:07" /\
  time_buffer {| tm_hour := 2; tm_min := 3; tm_sec := 7 |} = "02:03:07" /\
  substring 0 2 (time_buffer {| tm_hour := 14; tm_min := 3; tm_sec := 7 |}) <>
  two_digits 14.
Proof.
  split; [reflexivity |]. split; [reflexivity |].
  exact (proj1 (proj2 (proj2 (proj2 (proj2
           (timestamp_twelve_hour_clock {| tm_hour := 14; tm_min := 3; tm_sec := 7 |})))))
           14 (or_intror (conj (Zle_bool_imp_le 13 14 eq_refl)
                               (Zle_bool_imp_le 14 23 eq_refl)))).
Defined.

(** ** Lock discipline of the header's functions *)

Lemma disciplined_bind {A B : Type} (p : prog A) (f : A -> prog B) (held : bool)
    (Q : A -> bool -> Prop) (R : B -> bool -> Prop) :
  disciplined held Q p ->
  (forall a h, Q a h -> disciplined h R (f a)) ->
  disciplined held R (bind p f).
Proof.
  revert held. induction p as [a | X e k IH]; intros held Hp Hf.
  - simpl. apply Hf. exact Hp.
  - destruct e; simpl in *;
      try (destruct Hp as [Hheld Hk]; split;
           [exact Hheld | intro x; apply IH; [apply Hk | exact Hf]]).
    destruct Hp as [Hheld | Hk]; [left; exact Hheld |].
    right. intro x. apply IH; [apply Hk | exact Hf].
Qed.

Lemma set_log_file_disciplined (file_path : string) :
  disciplined false (@released unit) (set_log_file file_path).
Proof.
  simpl. right. intros _. split; [reflexivity |]. intros _.
  split; [reflexivity |]. intros [|]; simpl;
    repeat (split; [reflexivity |]; intro); reflexivity.
Qed.

Lemma get_log_stream_disciplined :
  disciplined false (@released stream) get_log_stream.
Proof.
  simpl. right. intros _. split; [reflexivity |].
  intros [|]; simpl; (split; [reflexivity |]); intro; reflexivity.
Qed.

Lemma console_branch_disciplined {B : Type} (r : LogDetailed) (f : unit -> prog B)
    (R : B -> bool -> Prop) :
  disciplined true R (bind (console_branch r) f).
Proof.
  destruct r as [l s fn n]. unfold console_branch.
  destruct l; simpl; (split; [reflexivity |]); intro;
    (split; [reflexivity |]); intro; left; reflexivity.
Qed.

Lemma android_branch_disciplined (r : LogDetailed) :
  disciplined true (fun (_ : unit) held => held = true) (android_branch r).
Proof.
  destruct r as [l s fn n].
  destruct l; simpl; (split; [reflexivity |]); intro; reflexivity.
Qed.

Lemma release_disciplined :
  disciplined true (@released unit) lock_guard_release.
Proof. simpl. split; [reflexivity |]. intro. reflexivity. Qed.

Lemma dtor_disciplined (b : build) (r : LogDetailed) :
  disciplined true (@released unit) (LogDetailed_dtor b r).
Proof.
  unfold LogDetailed_dtor, LogDetailed_dtor_body. simpl.
  split; [reflexivity |]. intro cb.
  destruct (handled cb r).
  - apply release_disciplined.
  - unfold output_path. destruct (ANDROID b).
    + apply (disciplined_bind _ _ _ _ _ (android_branch_disciplined r)).
      intros ? h ->. apply release_disciplined.
    + apply console_branch_disciplined.
Qed.

Lemma entry_disciplined (b : build) (level : Level) (file : string) (line : Z) :
  disciplined false (fun (_ : LogDetailed) held => held = true)
              (entry b level file line).
Proof. destruct level; simpl; right; intro; reflexivity. Qed.

Lemma perform_disciplined (b : build) (c : api_call) :
  disciplined false (@released unit) (perform b c).
Proof.
  destruct c as [file_path | | level file line texts]; simpl perform.
  - apply set_log_file_disciplined.
  - apply (disciplined_bind _ _ _ _ _ get_log_stream_disciplined).
    intros ? h Hh. exact Hh.
  - unfold statement.
    apply (disciplined_bind _ _ _ _ _ (entry_disciplined b level file line)).
    intros r h ->. apply dtor_disciplined.
Qed.

Lemma client_disciplined (b : build) (calls : list api_call) :
  disciplined false (@released unit) (client b calls).
Proof.
  induction calls as [| c rest IH]; simpl.
  - reflexivity.
  - apply (disciplined_bind _ _ _ _ _ (perform_disciplined b c)).
    intros ? h ->. exact IH.
Qed.

(** ** Mutual exclusion *)

Lemma handle_keeps_mutex (t : tid) {X : Type} (e : effect X) (x : X) (w w' : world) :
  is_lock (Op e) = false ->
  (match e with MutexUnlock => False | _ => True end) ->
  handle t e w = Some (x, w') ->
  log_mutex_ w' = log_mutex_ w.
Proof.
  intros Hl Hu Hh. destruct e; simpl in *; try discriminate; try contradiction;
    injection Hh as _ <-; try reflexivity.
  - apply open_keeps_mutex.
  - destruct s; simpl; [reflexivity |].
    destruct (is_open (log_file_state w) && negb (failed (log_file_state w)));
      reflexivity.
  - destruct s; simpl; [reflexivity |].
    destruct (associated (log_file_state w)); [| reflexivity].
    destruct (failed (log_file_state w)); reflexivity.
Qed.


(** *** A record and the other translation units *)

(** C1 (the code at the failing input): a process of two translation units
    that include the header; thread 1 has a record of [LogInfo()] alive,
    built by code of unit [unit_a].  The record holds the mutex of
    [unit_a] and not that of [unit_b], which is free.  While the record
    lives, thread 2 calls [set_log_file("flight.log")] through [unit_b]:
    the call returns, it has opened the stream of [unit_b] and written its
    notice to the console, and the record's mutex is still held by thread
    1.  Thread 2 also builds a record of its own through [unit_b] while the
    first lives, and then both mutexes are held, by different threads.
    Through [unit_a] the same call of thread 2 waits and writes nothing.
    The record's own dispatch on the console branch stops in the [lock()]
    of [get_log_stream()] after the colour and before any character of the
    line: its writes of the sink do not take place. *)
Theorem record_excludes_only_its_unit :
  (mutex_of record_alive unit_a = Some thread_1 /\
   mutex_of record_alive unit_b = None /\
   std_cout record_alive = []) /\
  (returned (run_in unit_b thread_2 (set_log_file "flight.log") record_alive) = Some tt /\
   console_text
     (std_cout (after (run_in unit_b thread_2 (set_log_file "flight.log") record_alive))) =
   ("Opened log file: flight.log" ++ newline)%string /\
   associated
     (file_of (after (run_in unit_b thread_2 (set_log_file "flight.log") record_alive))
        unit_b) = Some "flight.log" /\
   mutex_of (after (run_in unit_b thread_2 (set_log_file "flight.log") record_alive))
     unit_a = Some thread_1) /\
  (returned (run_in unit_b thread_2 (LogInfo posix "mission.cpp" 7) record_alive) =
   Some {| _log_level := Info; _s := EmptyString;
           _caller_filename := "mission.cpp"; _caller_filenumber := 7 |} /\
   mutex_of (after (run_in unit_b thread_2 (LogInfo posix "mission.cpp" 7) record_alive))
     unit_a = Some thread_1 /\
   mutex_of (after (run_in unit_b thread_2 (LogInfo posix "mission.cpp" 7) record_alive))
     unit_b = Some thread_2) /\
  (returned (run_in unit_a thread_2 (set_log_file "flight.log") record_alive) = None /\
   std_cout (after (run_in unit_a thread_2 (set_log_file "flight.log") record_alive)) = [] /\
   associated
     (file_of (after (run_in unit_a thread_2 (set_log_file "flight.log") record_alive))
        unit_a) = None) /\
  (returned (run_in unit_a thread_1 (LogDetailed_dtor posix starting_record) record_alive) =
   None /\
   std_cout (after (run_in unit_a thread_1 (LogDetailed_dtor posix starting_record)
                      record_alive)) = [Escape Blue] /\
   mutex_of (after (run_in unit_a thread_1 (LogDetailed_dtor posix starting_record)
                      record_alive)) unit_a = Some thread_1).
Proof. evaluate. Qed.

(** * Further properties of the header *)

(** ** Insertion *)

Lemma append_empty (s : string) : s ++ EmptyString = s.
Proof. induction s as [| a s IH]; simpl; [reflexivity | rewrite IH; reflexivity]. Qed.

Lemma fill_record (texts : list string) (l : Level) (s f : string) (n : Z) :
  fill texts {| _log_level := l; _s := s;
                _caller_filename := f; _caller_filenumber := n |} =
  {| _log_level := l; _s := s ++ glue texts;
     _caller_filename := f; _caller_filenumber := n |}.
Proof.
  revert s. induction texts as [| x rest IH]; intro s.
  - simpl. rewrite append_empty. reflexivity.
  - change (fill (x :: rest)
              {| _log_level := l; _s := s;
                 _caller_filename := f; _caller_filenumber := n |})
      with (fill rest {| _log_level := l; _s := s ++ x;
                         _caller_filename := f; _caller_filenumber := n |}).
    rewrite IH, append_assoc'. reflexivity.
Qed.

(** X1: chained insertions [r << x1 << ... << xn] append the texts to the
    record's buffer in the order written, after what it already holds, and
    leave level, file name and line as they are; with no insertion the
    record is unchanged. *)
Theorem insertions_accumulate (texts : list string) (r : LogDetailed) :
  _s (fill texts r) = _s r ++ glue texts /\
  _log_level (fill texts r) = _log_level r /\
  _caller_filename (fill texts r) = _caller_filename r /\
  _caller_filenumber (fill texts r) = _caller_filenumber r /\
  fill [] r = r /\
  (forall more, fill (texts ++ more) r = fill more (fill texts r)).
Proof.
  repeat match goal with |- _ /\ _ => split end;
    try (destruct r as [l s f n]; rewrite fill_record; reflexivity).
  - reflexivity.
  - intro more. unfold fill. apply fold_left_app.
Qed.

(** ** FILENAME as a base name *)

Lemma strrchr_last (dir name : string) :
  CString.occurs slash name = false ->
  CString.strrchr (dir ++ String slash name) slash = Some (String slash name).
Proof.
  intro H. induction dir as [| a dir IH]; simpl.
  - apply strrchr_absent in H. rewrite H. reflexivity.
  - rewrite IH. reflexivity.
Qed.

Lemma FILENAME_no_slash (b : build) (file : string) :
  WINDOWS b = false -> CString.occurs slash (FILENAME b file) = false.
Proof.
  intro Hb. unfold FILENAME. rewrite Hb. simpl.
  destruct (CString.strrchr file slash) as [p |] eqn:E.
  - destruct (strrchr_found _ _ _ E) as (before & after & _ & -> & Hafter).
    exact Hafter.
  - apply strrchr_absent. exact E.
Qed.

(** X2: on a build without WINDOWS, FILENAME of [dir/name] is [name] for
    every directory part and every [name] without a separator; a path that
    ends in the separator gives the empty name.  On every build FILENAME is
    idempotent. *)
Theorem FILENAME_basename (b : build) (dir name file : string) :
  (WINDOWS b = false ->
   CString.occurs slash name = false ->
   FILENAME b (dir ++ "/" ++ name) = name /\
   FILENAME b (dir ++ "/") = EmptyString) /\
  FILENAME b (FILENAME b file) = FILENAME b file.
Proof.
  split.
  - intros Hb Hname. unfold FILENAME. rewrite Hb. simpl negb. cbv iota.
    split.
    + change (dir ++ "/" ++ name) with (dir ++ String slash name).
      rewrite (strrchr_last dir name Hname). reflexivity.
    + change (dir ++ "/") with (dir ++ String slash EmptyString).
      rewrite (strrchr_last dir EmptyString eq_refl). reflexivity.
  - destruct (WINDOWS b) eqn:Hb.
    + unfold FILENAME. rewrite Hb. reflexivity.
    + pose proof (FILENAME_no_slash b file Hb) as H.
      apply strrchr_absent in H.
      unfold FILENAME at 1. rewrite Hb. simpl negb. cbv iota.
      rewrite H. reflexivity.
Qed.

Lemma FILENAME_basename_witness :
  FILENAME posix ("/usr/src/mavsdk/" ++ "/" ++ "system.cpp") = "system.cpp" /\
  FILENAME posix ("/usr/src/mavsdk/" ++ "/") = EmptyString.
Proof.
  exact (proj1 (FILENAME_basename posix "/usr/src/mavsdk/" "system.cpp" EmptyString)
           eq_refl eq_refl).
Defined.

(** ** The shape of the timestamp *)

Lemma digit_code (n : Z) :
  nat_of_ascii (digit n) = (48 + Z.to_nat (n mod 10))%nat.
Proof.
  unfold digit. apply nat_ascii_embedding.
  pose proof (Z.mod_pos_bound n 10 ltac:(lia)). lia.
Qed.

Lemma digit_is_digit (n : Z) : is_digit (digit n) = true.
Proof.
  unfold is_digit. rewrite digit_code.
  pose proof (Z.mod_pos_bound n 10 ltac:(lia)).
  apply andb_true_iff. split; apply Nat.leb_le; lia.
Qed.

Lemma digit_inj (a b : Z) : digit a = digit b -> a mod 10 = b mod 10.
Proof.
  intro H. apply (f_equal nat_of_ascii) in H. rewrite !digit_code in H.
  pose proof (Z.mod_pos_bound a 10 ltac:(lia)).
  pose proof (Z.mod_pos_bound b 10 ltac:(lia)). lia.
Qed.

Lemma two_digits_inj (a b : Z) :
  0 <= a <= 99 -> 0 <= b <= 99 -> two_digits a = two_digits b -> a = b.
Proof.
  intros Ha Hb H. unfold two_digits in H. injection H as Htens Hunits.
  apply digit_inj in Htens. apply digit_inj in Hunits.
  pose proof (Z.div_mod a 10 ltac:(lia)). pose proof (Z.div_mod b 10 ltac:(lia)).
  assert (0 <= a / 10 < 10) by (split; [apply Z.div_pos | apply Z.div_lt_upper_bound]; lia).
  assert (0 <= b / 10 < 10) by (split; [apply Z.div_pos | apply Z.div_lt_upper_bound]; lia).
  rewrite (Z.mod_small (a / 10)), (Z.mod_small (b / 10)) in Htens by lia.
  lia.
Qed.

(** X3: for a time whose fields are in range, the timestamp is eight
    characters, [dd:dd:dd] with six decimal digits and two colons; with its
    terminator it needs nine of the ten characters of [time_buffer], and a
    buffer of eight would be too small. *)
Theorem time_buffer_shape (t : tm) :
  in_range t ->
  (exists d1 d2 d3 d4 d5 d6 : ascii,
     time_buffer t =
       String d1 (String d2 (String ":" (String d3 (String d4
         (String ":" (String d5 (String d6 EmptyString))))))) /\
     is_digit d1 = true /\ is_digit d2 = true /\ is_digit d3 = true /\
     is_digit d4 = true /\ is_digit d5 = true /\ is_digit d6 = true) /\
  String.length (time_buffer t) = 8%nat /\
  strftime 9 "%I:%M:%S" t = Some (time_buffer t) /\
  strftime 8 "%I:%M:%S" t = None.
Proof.
  intros _. split; [| split; [| split]]; try reflexivity.
  exists (digit (hour12 (tm_hour t) / 10)), (digit (hour12 (tm_hour t))),
         (digit (tm_min t / 10)), (digit (tm_min t)),
         (digit (tm_sec t / 10)), (digit (tm_sec t)).
  split; [reflexivity |].
  repeat match goal with |- _ /\ _ => split end; apply digit_is_digit.
Qed.

Lemma time_buffer_shape_witness :
  String.length (time_buffer {| tm_hour := 23; tm_min := 59; tm_sec := 60 |}) = 8%nat.
Proof.
  exact (proj1 (proj2 (time_buffer_shape {| tm_hour := 23; tm_min := 59; tm_sec := 60 |}
           (conj (conj (Zle_bool_imp_le 0 23 eq_refl) (Zle_bool_imp_le 23 23 eq_refl))
              (conj (conj (Zle_bool_imp_le 0 59 eq_refl) (Zle_bool_imp_le 59 59 eq_refl))
                    (conj (Zle_bool_imp_le 0 60 eq_refl) (Zle_bool_imp_le 60 60 eq_refl))))))).
Defined.

(** X4: for times whose fields are in range, two timestamps are equal
    exactly when minute and second agree and the hours agree on the 12-hour
    clock, that is, when the hours are equal or twelve apart: the timestamp
    loses the half of the day and nothing else. *)
Theorem time_buffer_determines (t u : tm) :
  in_range t -> in_range u ->
  (time_buffer t = time_buffer u <->
   (tm_hour t = tm_hour u \/ tm_hour t = tm_hour u + 12 \/ tm_hour u = tm_hour t + 12) /\
   tm_min t = tm_min u /\ tm_sec t = tm_sec u).
Proof.
  intros (Hth & Htm & Hts) (Huh & Hum & Hus).
  rewrite !time_buffer_fields. split.
  - intro H.
    assert (Hh : two_digits (hour12 (tm_hour t)) = two_digits (hour12 (tm_hour u))).
    { unfold two_digits in *. simpl in H. congruence. }
    assert (Hm : two_digits (tm_min t) = two_digits (tm_min u)).
    { unfold two_digits in *. simpl in H. congruence. }
    assert (Hs : two_digits (tm_sec t) = two_digits (tm_sec u)).
    { unfold two_digits in *. simpl in H. congruence. }
    pose proof (hour12_range (tm_hour t)). pose proof (hour12_range (tm_hour u)).
    apply two_digits_inj in Hh; [| lia | lia].
    apply two_digits_inj in Hm; [| lia | lia].
    apply two_digits_inj in Hs; [| lia | lia].
    split; [| split; assumption].
    unfold hour12 in Hh.
    destruct (tm_hour t mod 12 =? 0) eqn:Et; destruct (tm_hour u mod 12 =? 0) eqn:Eu;
      rewrite ?Z.eqb_eq, ?Z.eqb_neq in Et, Eu;
      pose proof (Z.div_mod (tm_hour t) 12 ltac:(lia));
      pose proof (Z.div_mod (tm_hour u) 12 ltac:(lia));
      pose proof (Z.mod_pos_bound (tm_hour t) 12 ltac:(lia));
      pose proof (Z.mod_pos_bound (tm_hour u) 12 ltac:(lia));
      assert (0 <= tm_hour t / 12 <= 1)
        by (split; [apply Z.div_pos | apply Z.lt_succ_r, Z.div_lt_upper_bound]; lia);
      assert (0 <= tm_hour u / 12 <= 1)
        by (split; [apply Z.div_pos | apply Z.lt_succ_r, Z.div_lt_upper_bound]; lia);
      lia.
  - intros (Hh & -> & ->).
    assert (E : hour12 (tm_hour t) = hour12 (tm_hour u)).
    { destruct Hh as [-> | [-> | ->]];
        [reflexivity | apply hour12_afternoon | symmetry; apply hour12_afternoon]. }
    rewrite E. reflexivity.
Qed.

Lemma time_buffer_determines_witness :
  time_buffer {| tm_hour := 14; tm_min := 3; tm_sec := 7 |} =
  time_buffer {| tm_hour := 2; tm_min := 3; tm_sec := 7 |}.
Proof.
  refine (proj2 (time_buffer_determines
                   {| tm_hour := 14; tm_min := 3; tm_sec := 7 |}
                   {| tm_hour := 2; tm_min := 3; tm_sec := 7 |} _ _) _).
  - unfold in_range. simpl. lia.
  - unfold in_range. simpl. lia.
  - simpl. lia.
Defined.

(** ** Whole statements *)

Lemma release_restores (me : tid) (w : world) :
  log_mutex_ w = None -> set_mutex None (set_mutex (Some me) w) = w.
Proof. intro H. destruct w; simpl in H; subst; reflexivity. Qed.

(** A statement run with the mutex free is the destructor run on the
    record of the statement, by the thread now holding the mutex. *)
Lemma statement_run (me : tid) (b : build) (level : Level) (file : string) (line : Z)
    (texts : list string) (w : world) :
  log_mutex_ w = None ->
  run me (perform b (call_log level file line texts)) w =
  run me (LogDetailed_dtor b (record_of b level file line texts))
      (set_mutex (Some me) w).
Proof.
  intro H. simpl perform. unfold statement.
  rewrite run_bind, (entry_captures me b level file line w H).
  change (fold_left (fun r' (x : string) => r' << x) texts
            {| _log_level := level; _s := EmptyString;
               _caller_filename := FILENAME b file; _caller_filenumber := line |})
    with (fill texts
            {| _log_level := level; _s := EmptyString;
               _caller_filename := FILENAME b file; _caller_filenumber := line |}).
  rewrite fill_record. reflexivity.
Qed.

(** X5: a log statement whose record the registered callback reports as
    handled leaves the world exactly as it found it: nothing on the console,
    in the file or in the platform log, and the mutex free again.  The
    callback is asked about the level of the entry point, the inserted texts
    one after the other, the FILENAME of the call site and its line. *)
Theorem intercepted_statement_leaves_no_trace (me : tid) (b : build) (level : Level)
    (file : string) (line : Z) (texts : list string) (w : world) (f : Callback) :
  log_mutex_ w = None ->
  callback w = Some f ->
  f level (glue texts) (FILENAME b file) line = true ->
  run me (perform b (call_log level file line texts)) w = Done tt w.
Proof.
  intros Hm Hcb Hf. rewrite (statement_run me b level file line texts w Hm).
  rewrite dtor_handled.
  - rewrite (release_restores me w Hm). reflexivity.
  - reflexivity.
  - simpl. rewrite Hcb. exact Hf.
Qed.

Lemma intercepted_statement_leaves_no_trace_witness :
  run main_thread
    (perform posix (call_log Err "/src/core/mavlink.cpp" 311 ["timeout "; "after 3 s"]))
    {| log_mutex_ := None; log_file_state := log_file_state boot; console := [];
       disk := disk boot; openable := openable boot;
       callback := Some (fun l _ _ _ => match l with Err => true | _ => false end);
       clock := clock boot; logcat := [] |} =
  Done tt
    {| log_mutex_ := None; log_file_state := log_file_state boot; console := [];
       disk := disk boot; openable := openable boot;
       callback := Some (fun l _ _ _ => match l with Err => true | _ => false end);
       clock := clock boot; logcat := [] |}.
Proof.
  exact (intercepted_statement_leaves_no_trace main_thread posix Err
           "/src/core/mavlink.cpp" 311 ["timeout "; "after 3 s"]
           {| log_mutex_ := None; log_file_state := log_file_state boot; console := [];
              disk := disk boot; openable := openable boot;
              callback := Some (fun l _ _ _ => match l with Err => true | _ => false end);
              clock := clock boot; logcat := [] |}
           (fun l _ _ _ => match l with Err => true | _ => false end)
           eq_refl eq_refl eq_refl).
Defined.

(** ** Sequences of calls on ANDROID *)

Lemma open_keeps_rest (path : string) (mode : openmode) (w : world) :
  callback (ofstream_open path mode w) = callback w /\
  logcat (ofstream_open path mode w) = logcat w /\
  openable (ofstream_open path mode w) = openable w /\
  clock (ofstream_open path mode w) = clock w.
Proof.
  unfold ofstream_open.
  destruct (associated (log_file_state w)); [repeat split |].
  destruct (openable w path); repeat split.
Qed.




(** ** The mutex across a call *)

Lemma run_disciplined (me : tid) {A : Type} (p : prog A) :
  forall (held : bool) (Q : A -> bool -> Prop) (w : world),
    disciplined held Q p ->
    log_mutex_ w = (if held then Some me else None) ->
    match run me p w with
    | Done a w' => exists h, Q a h /\ log_mutex_ w' = (if h then Some me else None)
    | Blocked w' => log_mutex_ w' = Some me
    end.
Proof.
  induction p as [a | X e k IH]; intros held Q w D Hm.
  - simpl. exists held. split; assumption.
  - assert (Hother : is_lock (Op e) = false ->
                     (match e with MutexUnlock => False | _ => True end) ->
                     held = true /\ (forall x, disciplined true Q (k x)) ->
                     match run me (Vis e k) w with
                     | Done a w' =>
                         exists h, Q a h /\ log_mutex_ w' = (if h then Some me else None)
                     | Blocked w' => log_mutex_ w' = Some me
                     end).
    { intros Hl Hu [Hheld Hk]. subst held.
      change (run me (Vis e k) w)
        with (match handle me e w with
              | Some (x, w') => run me (k x) w'
              | None => Blocked w
              end).
      destruct (handle me e w) as [[x w'] |] eqn:Hh; [| exact Hm].
      apply (IH x true Q w' (Hk x)).
      rewrite (handle_keeps_mutex me e x w w' Hl Hu Hh). exact Hm. }
    destruct e; try (apply Hother; [reflexivity | exact I | exact D]).
    + simpl. destruct held.
      * rewrite Hm. exact Hm.
      * rewrite Hm. destruct D as [D | D]; [discriminate |].
        apply (IH tt true Q _ (D tt)). reflexivity.
    + simpl. destruct D as [-> D]. rewrite Hm, Nat.eqb_refl.
      apply (IH tt false Q _ (D tt)). reflexivity.
Qed.

(** X8: the mutex across a call of the header ([set_log_file],
    [get_log_stream], a log statement).  Called with the mutex free, a call
    that returns has released it, and a call that does not return has
    stopped holding it itself.  Called while the mutex is held, the call
    stops at once and has done nothing: the world is as before. *)
Theorem call_lock_balance (me : tid) (b : build) (c : api_call) (w : world) :
  (log_mutex_ w = None ->
   match run me (perform b c) w with
   | Done _ w' => log_mutex_ w' = None
   | Blocked w' => log_mutex_ w' = Some me
   end) /\
  (forall owner, log_mutex_ w = Some owner -> run me (perform b c) w = Blocked w).
Proof.
  split.
  - intro Hm.
    pose proof (run_disciplined me (perform b c) false released w
                  (perform_disciplined b c) Hm) as H.
    destruct (run me (perform b c) w) as [a w' | w']; [| exact H].
    destruct H as (h & Hq & Hw). unfold released in Hq. subst h. exact Hw.
  - intros owner Hm. destruct c as [file_path | | level file line texts].
    + simpl. rewrite Hm. reflexivity.
    + simpl. rewrite Hm. reflexivity.
    + destruct level; simpl; rewrite Hm; reflexivity.
Qed.

Lemma call_lock_balance_witness :
  run main_thread (perform posix (call_set_log_file "flight.log"))
      (set_mutex (Some 7%nat) boot) =
  Blocked (set_mutex (Some 7%nat) boot).
Proof.
  exact (proj2 (call_lock_balance main_thread posix (call_set_log_file "flight.log")
                  (set_mutex (Some 7%nat) boot)) 7%nat eq_refl).
Defined.

(** ** What [set_log_file] leaves alone *)

(** X10: whatever the path and whether or not a file is open, a call of
    [set_log_file] made with the mutex free returns with the mutex free,
    keeps the contents of every existing file, creates no file other than
    the one named, and leaves the callback registry and the platform log as
    they are. *)
Theorem set_log_file_keeps_files (me : tid) (w : world) (path : string) :
  log_mutex_ w = None ->
  exists w',
    run me (set_log_file path) w = Done tt w' /\
    log_mutex_ w' = None /\
    (forall q c, disk w q = Some c -> disk w' q = Some c) /\
    (forall q, q <> path -> disk w' q = disk w q) /\
    callback w' = callback w /\
    logcat w' = logcat w.
Proof.
  intro Hm. eexists. split; [apply set_log_file_run; exact Hm |].
  destruct (open_keeps_rest path (mode_or ios_out ios_app) w) as (Hcb & Hlc & _ & _).
  cbn [log_mutex_ disk callback logcat set_console].
  rewrite open_keeps_mutex, Hcb, Hlc.
  split; [exact Hm |]. split; [| split; [| split; reflexivity]].
  - intros q c Hq. unfold ofstream_open.
    destruct (associated (log_file_state w)); [exact Hq |].
    destruct (openable w path); [| exact Hq].
    cbn [disk set_file mode_app mode_or ios_out ios_app orb].
    unfold store. destruct (String.eqb q path) eqn:E; [| exact Hq].
    apply String.eqb_eq in E. subst q. unfold content. rewrite Hq. reflexivity.
  - intros q Hq. unfold ofstream_open.
    destruct (associated (log_file_state w)); [reflexivity |].
    destruct (openable w path); [| reflexivity].
    cbn [disk set_file]. apply store_other. exact Hq.
Qed.

Lemma set_log_file_keeps_files_witness :
  exists w',
    run main_thread (set_log_file "second.log") flight_open = Done tt w' /\
    disk w' "flight.log" = Some EmptyString.
Proof.
  destruct (set_log_file_keeps_files main_thread flight_open "second.log" eq_refl)
    as (w' & Hrun & _ & Hkeep & _).
  exists w'. split; [exact Hrun |].
  apply (Hkeep "flight.log" EmptyString). reflexivity.
Defined.

(** X11: a selection that failed because the path could not be opened does
    not stand in the way of a later one: with no file open, after
    [set_log_file(bad)] the call [set_log_file(good)] opens [good], clears
    the error state of the stream and makes the file the sink; the console
    has received the failure notice and both success notices, in that
    order. *)
Theorem selection_recovers (me : tid) (w : world) (bad good : string) :
  log_mutex_ w = None ->
  is_open (log_file_state w) = false ->
  openable w bad = false ->
  openable w good = true ->
  exists w',
    run me (set_log_file bad ;; set_log_file good) w = Done tt w' /\
    associated (log_file_state w') = Some good /\
    failed (log_file_state w') = false /\
    console_text (console w') =
      console_text (console w) ++
      "Failed to open log file: " ++ bad ++ newline ++
      "Opened log file: " ++ bad ++ newline ++
      "Opened log file: " ++ good ++ newline /\
    run me get_log_stream w' = Done log_file w'.
Proof.
  intros Hm Ho Hbad Hgood. apply is_open_associated in Ho.
  eexists. split.
  - rewrite run_bind, (set_log_file_run me w bad Hm).
    rewrite (open_unwritable w bad _ Ho Hbad).
    rewrite set_log_file_run; [| exact Hm].
    rewrite open_writable; [reflexivity | reflexivity | exact Hgood].
  - split; [reflexivity |]. split; [reflexivity |]. split.
    + cbn [console set_console set_file log_file_state is_open associated].
      rewrite !console_text_app, !notices_text. cbn iota.
      rewrite !append_assoc'. reflexivity.
    + rewrite get_log_stream_free; [reflexivity | exact Hm].
Qed.

Lemma selection_recovers_witness :
  exists w',
    run main_thread (set_log_file "/proc/none/app.log" ;; set_log_file "flight.log")
        boot = Done tt w' /\
    associated (log_file_state w') = Some "flight.log" /\
    failed (log_file_state w') = false.
Proof.
  destruct (selection_recovers main_thread boot "/proc/none/app.log" "flight.log"
              eq_refl eq_refl eq_refl eq_refl) as (w' & Hrun & Ha & Hf & _).
  exists w'. split; [exact Hrun |]. split; [exact Ha | exact Hf].
Defined.

(** ** Writing through the stream that [get_log_stream] returns *)

Lemma insert_keeps (os : stream) (text : string) (w : world) :
  log_mutex_ (ostream_insert os text w) = log_mutex_ w /\
  is_open (log_file_state (ostream_insert os text w)) = is_open (log_file_state w).
Proof.
  destruct os; simpl; [split; reflexivity |].
  destruct (is_open (log_file_state w) && negb (failed (log_file_state w)));
    split; reflexivity.
Qed.

Lemma write_through_run (me : tid) (text : string) (w : world) :
  log_mutex_ w = None ->
  run me (write_through text) w =
  Done tt
    (ostream_flush (if is_open (log_file_state w) then log_file else cout)
       (ostream_insert (if is_open (log_file_state w) then log_file else cout)
          text w)).
Proof.
  intro Hm. unfold write_through.
  rewrite run_bind, run_bind, (get_log_stream_free me w Hm).
  change (run me (put (if is_open (log_file_state w) then log_file else cout) text) w)
    with (Done tt (ostream_insert
                     (if is_open (log_file_state w) then log_file else cout) text w)).
  cbv iota.
  destruct (insert_keeps (if is_open (log_file_state w) then log_file else cout)
              text w) as [Hm' Ho'].
  rewrite run_bind, get_log_stream_free; [| rewrite Hm'; exact Hm].
  rewrite Ho'. reflexivity.
Qed.

(** X12: where text goes that a thread, not holding the mutex, writes
    through [get_log_stream()] and flushes.  With no file open it goes to
    the console.  With a file open and the stream in good state it goes to
    the end of that file, after what was pending.  With a file open and the
    stream in error state it goes nowhere; and that is the state after any
    call of [set_log_file] made while a file is open: from then on text
    written through the stream is dropped, the file keeping what it had. *)
Theorem write_through_routing (me : tid) (text : string) (w : world) :
  log_mutex_ w = None ->
  (is_open (log_file_state w) = false ->
   run me (write_through text) w = Done tt (print [Text text; Flushed] w)) /\
  (forall p, associated (log_file_state w) = Some p ->
     failed (log_file_state w) = false ->
     exists w',
       run me (write_through text) w = Done tt w' /\
       content (disk w') p =
         content (disk w) p ++ pending (log_file_state w) ++ text /\
       (forall q, q <> p -> disk w' q = disk w q) /\
       pending (log_file_state w') = EmptyString /\
       console w' = console w) /\
  (forall p, associated (log_file_state w) = Some p ->
     failed (log_file_state w) = true ->
     exists w',
       run me (write_through text) w = Done tt w' /\
       disk w' = disk w /\
       pending (log_file_state w') = pending (log_file_state w) /\
       console w' = console w) /\
  (forall p q, associated (log_file_state w) = Some p ->
     exists w1 w2,
       run me (set_log_file q) w = Done tt w1 /\
       run me (write_through text) w1 = Done tt w2 /\
       disk w2 = disk w /\
       console w2 = console w1).
Proof.
  intro Hm. split; [| split; [| split]].
  - intro Ho. rewrite (write_through_run me text w Hm), Ho.
    unfold ostream_flush, ostream_insert, print.
    destruct w as [m f c d o cb ck lc]. simpl.
    rewrite <- app_assoc. reflexivity.
  - intros p Ha Hf. rewrite (write_through_run me text w Hm).
    destruct w as [m [a fl pd] c d o cb ck lc]. simpl in Ha, Hf. subst a fl.
    eexists. split; [reflexivity |].
    cbv [ostream_flush ostream_insert is_open associated failed pending
         log_file_state set_file disk console andb negb].
    split; [apply content_store |]. split; [| split; reflexivity].
    intros q Hq. apply store_other. exact Hq.
  - intros p Ha Hf. rewrite (write_through_run me text w Hm).
    destruct w as [m [a fl pd] c d o cb ck lc]. simpl in Ha, Hf. subst a fl.
    eexists. split; [reflexivity |].
    cbv [ostream_flush ostream_insert is_open associated failed pending
         log_file_state set_file disk console andb negb].
    split; [reflexivity |]. split; reflexivity.
  - intros p q Ha. eexists. eexists.
    split; [apply set_log_file_run; exact Hm |].
    rewrite (open_when_open w p q _ Ha).
    split.
    + apply write_through_run. exact Hm.
    + cbv [ostream_flush ostream_insert is_open associated failed pending
           log_file_state set_file set_console disk console andb negb].
      split; reflexivity.
Qed.

Lemma write_through_routing_witness :
  run main_thread (write_through "marker") boot =
  Done tt (print [Text "marker"; Flushed] boot).
Proof.
  exact (proj1 (write_through_routing main_thread "marker" boot eq_refl) eq_refl).
Defined.

(** X13: the guard of [get_log_stream] covers only the test of
    [is_open()]: the function returns with the mutex released, so a thread
    that writes through the returned stream, as [write_through] does, inserts
    and flushes without holding the mutex; such a client does not follow the
    lock discipline, while [get_log_stream] itself does. *)
Theorem get_log_stream_guards_only_the_test (text : string) :
  disciplined false (@released stream) get_log_stream /\
  ~ disciplined false (@released unit) (write_through text) /\
  (forall me w, log_mutex_ w = None ->
     exists os, run me get_log_stream w = Done os w).
Proof.
  split; [apply get_log_stream_disciplined |]. split.
  - simpl. intros [H | H]; [discriminate |].
    destruct (H tt) as [_ H1]. destruct (H1 false) as [_ H2].
    destruct (H2 tt) as [H3 _]. discriminate.
  - intros me w Hm. eexists. apply get_log_stream_free. exact Hm.
Qed.

Lemma get_log_stream_guards_only_the_test_witness :
  exists os, run main_thread get_log_stream boot = Done os boot.
Proof.
  exact (proj2 (proj2 (get_log_stream_guards_only_the_test "marker"))
           main_thread boot eq_refl).
Defined.

(** ** No deadlock on ANDROID *)












(** ** A callback that handles everything *)

(** X15: while a callback is registered that reports every record as
    handled, every sequence of log statements made with the mutex free
    returns, on every build, and leaves the world exactly as it was: the
    destructor never reaches [get_log_stream()]. *)
Theorem handled_statements_complete (me : tid) (b : build)
    (statements : list (Level * string * Z * list string)) (w : world) (f : Callback) :
  log_mutex_ w = None ->
  callback w = Some f ->
  (forall level text file line, f level text file line = true) ->
  run me (client b (map log_call statements)) w = Done tt w.
Proof.
  intros Hm Hcb Hf. induction statements as [| [[[level file] line] texts] rest IH].
  - reflexivity.
  - change (client b (map log_call ((level, file, line, texts) :: rest)))
      with (bind (perform b (call_log level file line texts))
                 (fun _ : unit => client b (map log_call rest))).
    rewrite run_bind.
    rewrite (statement_run me b level file line texts w Hm).
    rewrite dtor_handled;
      [| reflexivity | simpl; rewrite Hcb; apply Hf].
    rewrite (release_restores me w Hm). exact IH.
Qed.

Lemma handled_statements_complete_witness :
  run main_thread
    (client posix (map log_call [(Info, "engine.cpp", 42, ["starting"]);
                                 (Err, "engine.cpp", 57, ["stopped"])]))
    {| log_mutex_ := None; log_file_state := log_file_state boot; console := [];
       disk := disk boot; openable := openable boot;
       callback := Some (fun _ _ _ _ => true);
       clock := clock boot; logcat := [] |} =
  Done tt
    {| log_mutex_ := None; log_file_state := log_file_state boot; console := [];
       disk := disk boot; openable := openable boot;
       callback := Some (fun _ _ _ _ => true);
       clock := clock boot; logcat := [] |}.
Proof.
  exact (handled_statements_complete main_thread posix
           [(Info, "engine.cpp", 42, ["starting"]); (Err, "engine.cpp", 57, ["stopped"])]
           {| log_mutex_ := None; log_file_state := log_file_state boot; console := [];
              disk := disk boot; openable := openable boot;
              callback := Some (fun _ _ _ _ => true);
              clock := clock boot; logcat := [] |}
           (fun _ _ _ _ => true) eq_refl eq_refl (fun _ _ _ _ => eq_refl)).
Defined.
